(** * kids.cfg: configuration discovery, dialect detection and views

    A shallow embedding of [src/kids/cfg/__init__.py] and the properties
    its specification states about it.

    - [Discovery]: [find_files], [find_file], [load_files] and [load];
      pure code over an oracle for [os.path.exists], with exceptions.
    - [Backend]: the [Cfg] classes and [choose_cfg_manager]; instances live
      in an object store, each with its own memoised [_cfg].
    - [mdict]: the dotted paths and nested walks of [kids.data.mdict],
      which the module imports.
    - [Config]: the proxy over the backend's shared, mutable mapping. *)

From stdpp Require Import base list strings.
From Stdlib Require Import ZArith Lia Ascii.

Open Scope string_scope.
Open Scope list_scope.

(** ** Python values shared by the three parts *)

(** The exceptions the module raises or lets through. *)
Inductive exception : Type :=
| ValueError (msg : string)
| SyntaxError (msg : string)
| NameError (name : string)
| NotImplementedError
| IndexError
| TypeError
| MissingKeyError (key : string).

(** Outcome of a call: a value, or an exception on its way up. *)
Inductive result (A : Type) : Type :=
| Return (a : A)
| Raise (e : exception).
Arguments Return {A} a.
Arguments Raise {A} e.

Definition is_raise {A} (r : result A) : bool :=
  match r with Raise _ => true | Return _ => false end.

(** [sep.join(l)] *)
Fixpoint join (sep : string) (l : list string) : string :=
  match l with
  | [] => ""
  | [x] => x
  | x :: rest => x +:+ sep +:+ join sep rest
  end.

(** * Discovery *)
Module Discovery.

(** [get_filename]: a callable without arguments that gives a path or
    [None], and that may raise like any call. *)
Definition supplier : Type := unit -> result (option string).

(** The 3-uple [(enforce_file_existence, should_cascade, get_filename)]. *)
Definition rule : Type := bool * bool * supplier.

Definition enforce_file_existence (r : rule) : bool := r.1.1.
Definition cascaded (r : rule) : bool := r.1.2.
Definition get_filename (r : rule) : supplier := r.2.

(** A supplier that returns a constant, [lambda: v]. *)
Definition const_supplier (v : option string) : supplier := fun _ => Return v.

Section FindFiles.

(** [os.path.exists] on the file system the call runs against. *)
Variable path_exists : string -> bool.
(** The builtin behind [%r]. *)
Variable repr : string -> string.

Definition file_does_not_exist (candidate : string) : exception :=
  ValueError ("File " +:+ repr candidate +:+ " does not exists.").

Definition no_config_file_found (paths_searched : list string) : exception :=
  ValueError ("No config file was found in those paths: "
              +:+ join ", " paths_searched +:+ ".").

(** The [for] loop of [find_files], threading [filenames] and
    [paths_searched]; [break] returns the state at once. *)
Fixpoint find_files_loop (research_structure : list rule)
    (filenames paths_searched : list string)
    : result (list string * list string) :=
  match research_structure with
  | [] => Return (filenames, paths_searched)
  | (enforce_file_existence, cascaded, fun_) :: rest =>
      match fun_ tt with
      | Raise e => Raise e
      | Return None => find_files_loop rest filenames paths_searched
      | Return (Some candidate) =>
          if String.eqb candidate "" then
            find_files_loop rest filenames paths_searched
          else if negb (path_exists candidate) then
            if enforce_file_existence then
              Raise (file_does_not_exist candidate)
            else
              find_files_loop rest filenames (paths_searched ++ [candidate])
          else
            let filenames := filenames ++ [candidate] in
            if negb cascaded then Return (filenames, paths_searched)
            else find_files_loop rest filenames paths_searched
      end
  end.

Definition find_files (research_structure : list rule)
    (raise_on_all_missing : bool) : result (list string) :=
  match find_files_loop research_structure [] [] with
  | Raise e => Raise e
  | Return (filenames, paths_searched) =>
      if match filenames with [] => true | _ => false end
         && raise_on_all_missing
      then Raise (no_config_file_found paths_searched)
      else Return filenames
  end.

(** [filenames[0]] *)
Definition getitem0 (filenames : list string) : result string :=
  match filenames with
  | [] => Raise IndexError
  | x :: _ => Return x
  end.

Definition find_file (research_structure : list (bool * supplier))
    (raise_on_all_missing : bool) : result (option string) :=
  match find_files
          (map (fun '(enforce_file_existence, fun_) =>
                  (enforce_file_existence, false, fun_))
               research_structure)
          raise_on_all_missing with
  | Raise e => Raise e
  | Return filenames =>
      if match filenames with [] => true | _ => false end
      then Return None
      else match getitem0 filenames with
           | Raise e => Raise e
           | Return f => Return (Some f)
           end
  end.

(** *** Vocabulary of the specification *)

(** The value a rule's supplier yields, when it yields one: not [None]
    and not the empty string. *)
Definition yields (r : rule) : option string :=
  match get_filename r tt with
  | Return (Some s) => if String.eqb s "" then None else Some s
  | _ => None
  end.

(** The filename a rule produces, when that file exists. *)
Definition existing_file (r : rule) : option string :=
  match yields r with
  | Some s => if path_exists s then Some s else None
  | None => None
  end.

(** The filename of the first rule, in order, whose file exists. *)
Fixpoint first_existing (rs : list rule) : option string :=
  match rs with
  | [] => None
  | r :: rest =>
      match existing_file r with
      | Some s => Some s
      | None => first_existing rest
      end
  end.

(** The loop goes past a rule, to the next one, when the supplier
    returns and the rule neither raises nor breaks. *)
Definition passes (r : rule) : bool :=
  match get_filename r tt with
  | Raise _ => false
  | Return _ =>
      match yields r with
      | None => true
      | Some s =>
          if path_exists s then cascaded r
          else negb (enforce_file_existence r)
      end
  end.

(** Every rule is evaluated and leaves [filenames] empty: each supplier
    returns, and yields nothing or a missing path that is not enforced. *)
Definition misses (r : rule) : bool :=
  match get_filename r tt with
  | Raise _ => false
  | Return _ =>
      match yields r with
      | None => true
      | Some s => negb (path_exists s) && negb (enforce_file_existence r)
      end
  end.

(** The paths the rules yield, in rule order. *)
Definition yielded_paths (rs : list rule) : list string :=
  omap yields rs.

End FindFiles.

(** [s.endswith(suffix)] and [s[:-n]] *)
Definition endswith (s suffix : string) : bool :=
  let n := String.length s in
  let m := String.length suffix in
  (m <=? n)%nat && String.eqb (String.substring (n - m) m s) suffix.

Definition drop_last (n : nat) (s : string) : string :=
  String.substring 0 (String.length s - n) s.

(** [dct.MultiDictReader], the overlay of the views of several files. *)
Inductive multi_dict_reader (C : Type) : Type :=
| MultiDictReader (views : list C).
Arguments MultiDictReader {C} views.

(** What [load] hands back: the overlay, or [default] as it was given
    ([None] stands for the [Null] sentinel). *)
Inductive loaded (C D : Type) : Type :=
| Overlay (m : multi_dict_reader C)
| Default (default : option D).
Arguments Overlay {C D} m.
Arguments Default {C D} default.

Section Load.

Variable path_exists : string -> bool.
Variable repr : string -> string.
(** [os.environ.get], [os.path.expanduser], [os.path.basename],
    [sys.argv[0]] and [str.upper] of the running process. *)
Variable environ_get : string -> option string.
Variable expanduser : string -> string.
Variable os_path_basename : string -> string.
Variable argv0 : string.
Variable upper : string -> string.

Context {C D : Type}.
(** [config_factory(f)], [Config] by default. *)
Variable config_factory : string -> result C.

(** [[config_factory(f) for f in filenames]] *)
Fixpoint comprehension (filenames : list string) : result (list C) :=
  match filenames with
  | [] => Return []
  | f :: rest =>
      match config_factory f with
      | Raise e => Raise e
      | Return c =>
          match comprehension rest with
          | Raise e => Raise e
          | Return cs => Return (c :: cs)
          end
      end
  end.

Definition load_files (filenames : list string)
    : result (multi_dict_reader C) :=
  match comprehension filenames with
  | Raise e => Raise e
  | Return views => Return (MultiDictReader views)
  end.

(** [if basename is None: ...] *)
Definition infer_basename (basename : option string) : string :=
  match basename with
  | Some b => b
  | None =>
      let basename := os_path_basename argv0 in
      if endswith basename ".py" then drop_last 3 basename else basename
  end.

(** Truth value of an optional string argument. *)
Definition truthy (v : option string) : bool :=
  match v with
  | Some s => negb (String.eqb s "")
  | None => false
  end.

(** The [config_struct] that [load] builds when none is given. The name
    [b] of the third lambda is bound nowhere in the module: calling it
    raises [NameError]. *)
Definition default_config_struct (basename : string)
    (config_file local_path : option string) : list rule :=
  [ (true, false, fun _ => Return config_file);
    (true, false,
     fun _ => Return (environ_get (upper basename +:+ "_CONFIG_FILENAME"))) ]
  ++ (if truthy local_path
      then [ (false, true, fun _ => Raise (NameError "b")) ]
      else [])
  ++ [ (false, true,
        fun _ => Return (Some (expanduser ("~/." +:+ basename +:+ ".rc"))));
       (false, true,
        fun _ => Return (Some (expanduser ("~/." +:+ basename +:+ ".rc"))));
       (false, true,
        fun _ => Return (Some ("/etc/" +:+ basename +:+ ".rc"))) ].

Definition load (basename : option string) (default : option D)
    (config_file local_path : option string)
    (config_struct : option (list rule)) : result (loaded C D) :=
  let basename := infer_basename basename in
  let config_struct :=
    match config_struct with
    | Some cs => cs
    | None => default_config_struct basename config_file local_path
    end in
  match find_files path_exists repr config_struct
          (match default with None => true | Some _ => false end) with
  | Raise e => Raise e
  | Return filenames =>
      if (0 <? length filenames)%nat then
        match load_files filenames with
        | Raise e => Raise e
        | Return m => Return (Overlay m)
        end
      else Return (Default default)
  end.

End Load.

End Discovery.

(** * The object store *)

(** Values a mapping holds. A nested mapping is a reference to a [dict]
    object of the store: backends and views share it, and a mutation made
    through one is seen through the others. *)
Inductive value : Type :=
| VNone
| VInt (n : Z)
| VStr (s : string)
| VDict (ref : nat).

(** A [dict] object: its items in insertion order, each key once. *)
Abbreviation dict := (list (string * value)).

(** [d.get(k)], [d[k] = v], [del d[k]] ([None]: [KeyError]) and [iter(d)]. *)
Fixpoint dict_get (d : dict) (k : string) : option value :=
  match d with
  | [] => None
  | (k', v) :: rest => if String.eqb k' k then Some v else dict_get rest k
  end.

Fixpoint dict_set (d : dict) (k : string) (v : value) : dict :=
  match d with
  | [] => [(k, v)]
  | (k', v') :: rest =>
      if String.eqb k' k then (k', v) :: rest
      else (k', v') :: dict_set rest k v
  end.

Fixpoint dict_del (d : dict) (k : string) : option dict :=
  match d with
  | [] => None
  | (k', v) :: rest =>
      if String.eqb k' k then Some rest
      else match dict_del rest k with
           | Some rest' => Some ((k', v) :: rest')
           | None => None
           end
  end.

Definition dict_keys (d : dict) : list string := map fst d.

(** What a parser reads off a file, before it is made of objects. *)
#[warnings="-register-all"]
Inductive tree : Type :=
| TNone
| TInt (n : Z)
| TStr (s : string)
| TDict (items : list (string * tree)).

(** Building the objects of a parsed tree in the heap of dicts; a new
    dict takes the next free address. *)
Fixpoint alloc (t : tree) (h : list dict) : value * list dict :=
  match t with
  | TNone => (VNone, h)
  | TInt n => (VInt n, h)
  | TStr s => (VStr s, h)
  | TDict items =>
      let fix alloc_items (items : list (string * tree)) (d : dict)
              (h : list dict) : dict * list dict :=
        match items with
        | [] => (d, h)
        | (k, t) :: rest =>
            let '(v, h1) := alloc t h in
            alloc_items rest (dict_set d k v) h1
        end in
      let '(d, h') := alloc_items items [] h in
      (VDict (length h'), h' ++ [d])
  end.

Fixpoint alloc_items (items : list (string * tree)) (d : dict)
    (h : list dict) : dict * list dict :=
  match items with
  | [] => (d, h)
  | (k, t) :: rest =>
      let '(v, h1) := alloc t h in
      alloc_items rest (dict_set d k v) h1
  end.

(** The top-level mapping of a file: the address of its dict. *)
Definition alloc_dict (items : list (string * tree)) (h : list dict)
    : nat * list dict :=
  let '(d, h') := alloc_items items [] h in
  (length h', h' ++ [d]).

(** The classes of the module: [Cfg], [PyCfg], and the two made by
    [mkCustomCfg]. *)
Inductive cfg_class : Type := Cfg | PyCfg | ConfigObjCfg | YamlCfg.

(** A [Cfg] instance, with the memo of its [_cfg] property. *)
Record cfg_object : Type := mk_cfg {
  cfg_class_of : cfg_class;
  _filename : string;
  cfg_cache : option nat
}.

(** A [Config] instance, with the memo of its [_cfg] property ([_mcfg]
    wraps the same dict and is memoised with it). *)
Record config_object : Type := mk_config {
  _prefix : list string;
  _cfg_manager : nat;
  _provided_cfg : option nat;
  config_cache : option nat
}.

(** The state of a run: the three kinds of objects, the calls made to the
    parsers and the writes made to files. *)
Record world : Type := mk_world {
  dicts : list dict;
  cfgs : list cfg_object;
  configs : list config_object;
  parses : list (cfg_class * string);
  writes : list (string * nat)
}.

Definition empty_world : world := mk_world [] [] [] [] [].

Definition set_dicts (h : list dict) (w : world) : world :=
  mk_world h (cfgs w) (configs w) (parses w) (writes w).
Definition set_cfgs (l : list cfg_object) (w : world) : world :=
  mk_world (dicts w) l (configs w) (parses w) (writes w).
Definition set_configs (l : list config_object) (w : world) : world :=
  mk_world (dicts w) (cfgs w) l (parses w) (writes w).
Definition log_parse (p : cfg_class * string) (w : world) : world :=
  mk_world (dicts w) (cfgs w) (configs w) (parses w ++ [p]) (writes w).
Definition log_write (p : string * nat) (w : world) : world :=
  mk_world (dicts w) (cfgs w) (configs w) (parses w) (writes w ++ [p]).

(** What lies outside the module: the parsers, [None] for a library that
    failed to import, and the builtin behind [%r]. [py_exec] stands for
    [open], [compile] and [exec] of [PyCfg], with the [SyntaxError] as
    [PyCfg] words it; it gives the namespace after the run. *)
Record runtime : Type := mk_runtime {
  py_exec : string -> result (list (string * tree));
  configobj : option (string -> result (list (string * tree)));
  yaml : option (string -> result (list (string * tree)));
  py_repr : string -> string
}.

(** ** Stateful calls: a state the call may change, also when it raises *)
Definition M (A : Type) : Type := world -> result A * world.

Definition ret {A} (a : A) : M A := fun w => (Return a, w).
Definition raise {A} (e : exception) : M A := fun w => (Raise e, w).
Definition bind {A B} (m : M A) (k : A -> M B) : M B :=
  fun w => match m w with
           | (Return a, w') => k a w'
           | (Raise e, w') => (Raise e, w')
           end.
Definition get : M world := fun w => (Return w, w).
Definition modify (f : world -> world) : M unit := fun w => (Return tt, f w).
Definition lift {A} (r : result A) : M A := fun w => (r, w).
(** [try: m except Exception: handler] *)
Definition try_except {A} (m : M A) (handler : M A) : M A :=
  fun w => match m w with
           | (Return a, w') => (Return a, w')
           | (Raise _, w') => handler w'
           end.

Notation "x <- c1 ;; c2" := (bind c1 (fun x => c2))
  (at level 100, c1 at next level, right associativity).
Notation "c1 ;;; c2" := (bind c1 (fun _ => c2))
  (at level 100, right associativity).

(** Modelled from the spec: the [cache] decorator of [kids.cache] is not
    part of the sources. A property under it is computed on the first
    access that returns, the value is kept with the instance, and later
    accesses give the kept value without computing again. *)
Definition cached_property {A} (memo : option A) (compute : M A)
    (store : A -> M unit) : M A :=
  match memo with
  | Some a => ret a
  | None => a <- compute ;; store a ;;; ret a
  end.

(** * Backends: the [Cfg] classes and their detection *)
Module Backend.

Definition _GENERIC_CFG : list cfg_class := [PyCfg; ConfigObjCfg; YamlCfg].

Section Backend.

Variable rt : runtime.

(** [Cfg.__init__]: a new instance, its memo empty. *)
Definition __init__ (cls : cfg_class) (filename : string) : M nat :=
  fun w =>
    (Return (length (cfgs w)),
     set_cfgs (cfgs w ++ [mk_cfg cls filename None]) w).

(** [cm(filename)] for a name of [_GENERIC_CFG]: where the library did not
    import, the name is bound to a function that raises. *)
Definition construct (cm : cfg_class) (filename : string) : M nat :=
  match cm with
  | ConfigObjCfg =>
      match configobj rt with
      | Some _ => __init__ cm filename
      | None =>
          raise (ValueError
                   ("You can't use ConfigObjLoader since 'configobj' "
                    +:+ "is not available on your system."))
      end
  | YamlCfg =>
      match yaml rt with
      | Some _ => __init__ cm filename
      | None =>
          raise (ValueError
                   ("You can't use YamlLoader since 'yaml' "
                    +:+ "is not available on your system."))
      end
  | _ => __init__ cm filename
  end.

Definition deref (self : nat) : M cfg_object :=
  fun w => match cfgs w !! self with
           | Some o => (Return o, w)
           | None => (Raise TypeError, w)
           end.

(** A parsed mapping becomes objects of the store. *)
Definition store_dict (items : list (string * tree)) : M nat :=
  fun w => let '(r, h) := alloc_dict items (dicts w) in
           (Return r, set_dicts h w).

(** The call of a [load] of [mkCustomCfg]. *)
Definition custom_load (cls : cfg_class)
    (load : option (string -> result (list (string * tree))))
    (filename : string) : M nat :=
  match load with
  | Some load =>
      modify (log_parse (cls, filename)) ;;;
      (cfg <- lift (load filename) ;; store_dict cfg)
  | None => raise TypeError
  end.

(** The body of the [_cfg] property, class by class. A [PyCfg] is built
    by [cm(filename)], with [config=None]: its script runs in a namespace
    that starts empty, and [__builtins__] is left out of the copy. *)
Definition compute_cfg (o : cfg_object) : M nat :=
  match cfg_class_of o with
  | Cfg => raise NotImplementedError
  | PyCfg =>
      modify (log_parse (PyCfg, _filename o)) ;;;
      (cfg <- lift (py_exec rt (_filename o)) ;;
       store_dict (filter (fun kv => kv.1 <> "__builtins__") cfg))
  | ConfigObjCfg => custom_load ConfigObjCfg (configobj rt) (_filename o)
  | YamlCfg => custom_load YamlCfg (yaml rt) (_filename o)
  end.

(** [self._cfg] under [@cache], the memo kept in the instance. *)
Definition _cfg (self : nat) : M nat :=
  o <- deref self ;;
  cached_property (cfg_cache o) (compute_cfg o)
    (fun r =>
       modify (fun w =>
                 set_cfgs (<[self := mk_cfg (cfg_class_of o) (_filename o)
                                            (Some r)]> (cfgs w)) w)).

(** [self.save()]: [Cfg] raises and [PyCfg] inherits it; a custom class
    calls its [save] on [self._cfg]. The write of a custom class is
    recorded as one entry of [writes] and is taken to return: an error
    of the serializer or of the file system during the write, and the
    file it would leave truncated, are outside this model. *)
Definition save (self : nat) : M unit :=
  o <- deref self ;;
  match cfg_class_of o with
  | Cfg | PyCfg => raise NotImplementedError
  | ConfigObjCfg | YamlCfg =>
      r <- _cfg self ;;
      modify (log_write (_filename o, r))
  end.

(** The loop of [choose_cfg_manager] over the classes left to try. *)
Fixpoint choose_loop (cms : list cfg_class) (filename : string) : M nat :=
  match cms with
  | [] =>
      raise (SyntaxError
               ("No config parser manage to read config file "
                +:+ py_repr rt filename +:+ "."))
  | cm :: rest =>
      try_except
        (o <- construct cm filename ;; _cfg o ;;; construct cm filename)
        (choose_loop rest filename)
  end.

Definition choose_cfg_manager (filename : string) : M nat :=
  choose_loop _GENERIC_CFG filename.

(** Whether [cm(filename)] returns: it depends on the class and on the
    libraries, not on the state. *)
Definition constructible (cm : cfg_class) : bool :=
  match cm with
  | ConfigObjCfg => match configobj rt with Some _ => true | None => false end
  | YamlCfg => match yaml rt with Some _ => true | None => false end
  | _ => true
  end.

(** One trial of the loop: construct, then force the load. *)
Definition trial (cm : cfg_class) (filename : string) : M nat :=
  o <- construct cm filename ;; _cfg o.

End Backend.

End Backend.

(** * mdict: dotted paths over nested mappings *)
Module mdict.

(** Modelled from the spec: [kids.data.mdict] is not part of the sources.
    The tokenizer splits a path at each separator [.] that the escape
    character [\] does not precede; an escaped character stands for
    itself in the key. *)
Fixpoint tokenize_from (cur : string) (s : string) : list string :=
  match s with
  | EmptyString => [cur]
  | String c rest =>
      if Ascii.eqb c "\"%char then
        match rest with
        | EmptyString => [cur +:+ String c EmptyString]
        | String c' rest' => tokenize_from (cur +:+ String c' EmptyString) rest'
        end
      else if Ascii.eqb c "."%char then cur :: tokenize_from EmptyString rest
      else tokenize_from (cur +:+ String c EmptyString) rest
  end.

Definition tokenize (path : string) : list string :=
  tokenize_from EmptyString path.

(** Modelled from the spec: a key as it is written in a path, separators
    and escape characters escaped. *)
Fixpoint escape (key : string) : string :=
  match key with
  | EmptyString => EmptyString
  | String c rest =>
      if Ascii.eqb c "\"%char || Ascii.eqb c "."%char
      then String "\"%char (String c (escape rest))
      else String c (escape rest)
  end.

Definition untokenize (keys : list string) : string :=
  join "." (map escape keys).

(** Modelled from the spec: the walk of a list of keys from a value, one
    mapping level per key; a key that is absent raises the missing-key
    error that names it. *)
Fixpoint aget (h : list dict) (v : value) (keys : list string)
    : result value :=
  match keys with
  | [] => Return v
  | k :: ks =>
      match v with
      | VDict r =>
          match h !! r with
          | Some d =>
              match dict_get d k with
              | Some v' => aget h v' ks
              | None => Raise (MissingKeyError k)
              end
          | None => Raise TypeError
          end
      | _ => Raise TypeError
      end
  end.

(** Modelled from the spec: assignment at a list of keys. The last key is
    assigned in its parent mapping; a section that is missing on the way
    is created (the docstring of [Config]: [cfg['k.u'] = 2]). *)
Fixpoint aset (h : list dict) (r : nat) (keys : list string) (v : value)
    : result unit * list dict :=
  match keys with
  | [] => (Raise IndexError, h)
  | k :: ks =>
      match h !! r with
      | None => (Raise TypeError, h)
      | Some d =>
          match ks with
          | [] => (Return tt, <[r := dict_set d k v]> h)
          | _ :: _ =>
              match dict_get d k with
              | Some (VDict r') => aset h r' ks v
              | Some _ => (Raise TypeError, h)
              | None =>
                  let r' := length h in
                  aset (<[r := dict_set d k (VDict r')]> h ++ [[]]) r' ks v
              end
          end
      end
  end.

(** Modelled from the spec: deletion at a list of keys; any key that is
    absent, the last one too, raises the missing-key error. *)
Fixpoint adel (h : list dict) (r : nat) (keys : list string)
    : result unit * list dict :=
  match keys with
  | [] => (Raise IndexError, h)
  | k :: ks =>
      match h !! r with
      | None => (Raise TypeError, h)
      | Some d =>
          match ks with
          | [] =>
              match dict_del d k with
              | Some d' => (Return tt, <[r := d']> h)
              | None => (Raise (MissingKeyError k), h)
              end
          | _ :: _ =>
              match dict_get d k with
              | Some (VDict r') => adel h r' ks
              | Some _ => (Raise TypeError, h)
              | None => (Raise (MissingKeyError k), h)
              end
          end
      end
  end.

(** [mdict(dct)[label]], [mdict(dct)[label] = value] and
    [del mdict(dct)[label]] on the dict at address [dct]. *)
Definition __getitem__ (dct : nat) (label : string) : M value :=
  fun w => (aget (dicts w) (VDict dct) (tokenize label), w).

Definition __setitem__ (dct : nat) (label : string) (v : value) : M unit :=
  fun w => let '(r, h) := aset (dicts w) dct (tokenize label) v in
           (r, set_dicts h w).

Definition __delitem__ (dct : nat) (label : string) : M unit :=
  fun w => let '(r, h) := adel (dicts w) dct (tokenize label) in
           (r, set_dicts h w).

(** The addresses of the mappings a walk goes through, the starting one
    first, as long as the keys lead to mappings. *)
Fixpoint walk (h : list dict) (r : nat) (keys : list string) : list nat :=
  match keys with
  | [] => []
  | k :: ks =>
      r :: match h !! r with
           | Some d =>
               match dict_get d k with
               | Some (VDict r') => walk h r' ks
               | _ => []
               end
           | None => []
           end
  end.

End mdict.

(** * Config: the view *)
Module Config.

(** The first argument of [Config]: a [Cfg] instance or a file name. *)
Inductive config_arg : Type :=
| Manager (o : nat)
| Filename (f : string).

(** What [cfg[label]] gives: a plain value, or a new [Config]. *)
Inductive item : Type :=
| Leaf (v : value)
| View (c : nat).

Section Config.

Variable rt : runtime.

Definition __init__ (config : config_arg) (prefix : option (list string))
    (cfg : option nat) : M nat :=
  m <- match config with
       | Manager o => ret o
       | Filename f => Backend.choose_cfg_manager rt f
       end ;;
  fun w =>
    (Return (length (configs w)),
     set_configs
       (configs w
        ++ [mk_config (match prefix with Some p => p | None => [] end)
                      m cfg None]) w).

Definition deref (self : nat) : M config_object :=
  fun w => match configs w !! self with
           | Some c => (Return c, w)
           | None => (Raise TypeError, w)
           end.

(** [self._cfg] under [@cache]. [if self._provided_cfg:] is the truth
    value of the mapping: [None] and an empty dict both fail it. *)
Definition _cfg (self : nat) : M nat :=
  c <- deref self ;;
  cached_property (config_cache c)
    match _provided_cfg c with
    | Some p =>
        w <- get ;;
        match dicts w !! p with
        | Some (_ :: _) => ret p
        | Some [] => Backend._cfg rt (_cfg_manager c)
        | None => raise TypeError
        end
    | None => Backend._cfg rt (_cfg_manager c)
    end
    (fun r =>
       modify (fun w =>
                 set_configs
                   (<[self := mk_config (_prefix c) (_cfg_manager c)
                                        (_provided_cfg c) (Some r)]>
                      (configs w)) w)).

(** [self._mcfg]: [mdict.mdict(self._cfg)], a wrapper of that dict. *)
Definition _mcfg (self : nat) : M nat := _cfg self.


Definition __getitem__ (self : nat) (label : string) : M item :=
  dct <- _mcfg self ;;
  res <- mdict.__getitem__ dct label ;;
  match res with
  | VDict r =>
      c <- deref self ;;
      v <- __init__ (Manager (_cfg_manager c))
                    (Some (_prefix c ++ [label])) (Some r) ;;
      ret (View v)
  | _ => ret (Leaf res)
  end.

Definition __iter__ (self : nat) : M (list string) :=
  dct <- _cfg self ;;
  w <- get ;;
  match dicts w !! dct with
  | Some d => ret (dict_keys d)
  | None => raise TypeError
  end.

(** Modelled from the spec: [label in cfg] is not defined in the sources;
    it tests one top-level key of the mapping the view iterates. *)
Definition __contains__ (self : nat) (label : string) : M bool :=
  keys <- __iter__ self ;;
  ret (bool_decide (label ∈ keys)).

(** The first statement of [__setitem__], before the save. *)
Definition assign (self : nat) (label : string) (v : value) : M unit :=
  dct <- _mcfg self ;; mdict.__setitem__ dct label v.

Definition __setitem__ (self : nat) (label : string) (v : value) : M unit :=
  assign self label v ;;;
  (c <- deref self ;; Backend.save rt (_cfg_manager c)).

Definition __delitem__ (self : nat) (label : string) : M unit :=
  (dct <- _mcfg self ;; mdict.__delitem__ dct label) ;;;
  (c <- deref self ;; Backend.save rt (_cfg_manager c)).

End Config.

End Config.

(** * The specification's wording, as definitions *)
Module Spec.

(** [find_file] as the specification words it: [find_files] over the
    structure with cascade forced false on every rule, then the first
    element of the list, or [None] when the list is empty. *)
Definition force_no_cascade (rs : list (bool * Discovery.supplier))
    : list Discovery.rule :=
  map (fun r => (r.1, false, r.2)) rs.

Definition find_file (path_exists : string -> bool) (repr : string -> string)
    (rs : list (bool * Discovery.supplier)) (raise_on_all_missing : bool)
    : result (option string) :=
  match Discovery.find_files path_exists repr (force_no_cascade rs)
          raise_on_all_missing with
  | Raise e => Raise e
  | Return l => Return (head l)
  end.

(** The first class, in the order of the list, whose trial load succeeds,
    with the state the trials leave. *)
Fixpoint first_successful (rt : runtime) (cms : list cfg_class)
    (filename : string) (w : world) : option (cfg_class * world) :=
  match cms with
  | [] => None
  | cm :: rest =>
      match Backend.trial rt cm filename w with
      | (Return _, w') => Some (cm, w')
      | (Raise _, w') => first_successful rt rest filename w'
      end
  end.



(** A key that needs no escaping: no separator, no escape character. *)
Fixpoint plain (key : string) : bool :=
  match key with
  | EmptyString => true
  | String c rest =>
      negb (Ascii.eqb c "\"%char) && negb (Ascii.eqb c "."%char) && plain rest
  end.



(** A dialect is read-only when its class has the [save] of [Cfg]. *)
Definition read_only (cls : cfg_class) : bool :=
  match cls with
  | Cfg | PyCfg => true
  | ConfigObjCfg | YamlCfg => false
  end.

(** The item at [label] in the mapping at [dct]; a nested mapping comes
    back as the view that is built next. *)
Definition lookup_item (h : list dict) (dct : nat) (label : string)
    (next : nat) : result Config.item :=
  match mdict.aget h (VDict dct) (mdict.tokenize label) with
  | Raise e => Raise e
  | Return (VDict _) => Return (Config.View next)
  | Return v => Return (Config.Leaf v)
  end.

(** The reads of the view [c] in the state [w] go to the mapping at
    [dct], whose items are [d]: its [_cfg], its iteration, its containment
    test and its item access. *)
Definition reads (rt : runtime) (c : nat) (w : world) (dct : nat) (d : dict)
    : Prop :=
  (Config._cfg rt c w).1 = Return dct /\
  (Config.__iter__ rt c w).1 = Return (dict_keys d) /\
  (forall k,
     (Config.__contains__ rt c k w).1
     = Return (bool_decide (k ∈ dict_keys d))) /\
  (forall k,
     (Config.__getitem__ rt c k w).1
     = lookup_item (dicts w) dct k (length (configs w))).

(** What [cfg[label]] gives and leaves, once the view [c] reads the
    mapping at [dct]: the walk, then a new view for a nested mapping. *)
Definition getitem_result (w : world) (c : config_object) (dct : nat)
    (label : string) : result Config.item * world :=
  match mdict.aget (dicts w) (VDict dct) (mdict.tokenize label) with
  | Raise e => (Raise e, w)
  | Return (VDict r) =>
      (Return (Config.View (length (configs w))),
       set_configs
         (configs w
          ++ [mk_config (_prefix c ++ [label]) (_cfg_manager c) (Some r)
                        None]) w)
  | Return v => (Return (Config.Leaf v), w)
  end.

(** What item access gives for a value that was assigned. *)
Definition item_of (v : value) (next : nat) : Config.item :=
  match v with
  | VDict _ => Config.View next
  | _ => Config.Leaf v
  end.

End Spec.

(** * Concrete runs *)
Module Examples.

(** The directory of the docstrings: [foo.rc] and [.foo.rc] exist. *)
Definition fs_foo (p : string) : bool :=
  String.eqb p "foo.rc" || String.eqb p ".foo.rc".

(** [%r] of a string without quotes or escapes. *)
Definition quote (s : string) : string := "'" +:+ s +:+ "'".

Definition lam (s : string) : Discovery.supplier :=
  Discovery.const_supplier (Some s).

(** A home directory with [.foo.rc] in it and nothing else on disk. *)
Definition fs_home (p : string) : bool := String.eqb p "/home/u/.foo.rc".

Definition expanduser_u (p : string) : string :=
  match p with
  | String "~"%char rest => "/home/u" +:+ rest
  | _ => p
  end.

Definition no_environ (name : string) : option string := None.

Definition basename_id (p : string) : string := p.

(** A runtime where the script dialect reads every file as [x = 1] with
    [b = {'foo': 3}], and the other two libraries are missing. *)
Definition rt_py : runtime :=
  mk_runtime
    (fun _ => Return [("__builtins__", TNone); ("x", TInt 1);
                      ("b", TDict [("foo", TInt 3)]); ("e", TDict [])])
    None None quote.

(** [cfg = Config(PyCfg(cfgfile))]: the backend is object 0, the view is
    view 0. After the first read the mapping of [b] is dict 0, the empty
    mapping of [e] is dict 1 and the root mapping is dict 2. *)
Definition w_backend : world :=
  (Backend.__init__ PyCfg "app.rc" empty_world).2.

Definition w_view : world :=
  (Config.__init__ rt_py (Config.Manager 0) None None w_backend).2.

Definition w_loaded : world := (Config._cfg rt_py 0 w_view).2.

(** The state after [cfg['b.bar'] = 2]. *)
Definition h_assigned : list dict :=
  (mdict.aset (dicts w_loaded) 2 (mdict.tokenize "b.bar") (VInt 2)).2.

Definition w_assigned : world := set_dicts h_assigned w_loaded.

(** The state after [cfg['e']], which builds view 1. *)
Definition w_e : world := (Config.__getitem__ rt_py 0 "e" w_view).2.

(** A runtime with the structured-mapping library only; every file reads
    as a mapping with the key [a.b] next to the section [a], which has a
    key [b] and a section [s]. *)
Definition rt_yaml : runtime :=
  mk_runtime
    (fun _ => Raise (SyntaxError "Syntax error in config file"))
    None
    (Some (fun _ =>
             Return [("a.b", TInt 1);
                     ("a", TDict [("b", TInt 2);
                                  ("s", TDict [("c", TInt 3)])])]))
    quote.

(** [cfg = Config(cfgfile)], the dialect detected. *)
Definition w_yaml : world :=
  (Config.__init__ rt_yaml (Config.Filename "app.yml") None None
     empty_world).2.

(** A mapping that holds itself at key [a], as a script can build it. *)
Definition h_cyclic : list dict := [[("a", VDict 0)]].

(** [str.upper] on ASCII letters. *)
Definition upper_char (c : ascii) : ascii :=
  let n := nat_of_ascii c in
  if (97 <=? n)%nat && (n <=? 122)%nat then ascii_of_nat (n - 32) else c.

Fixpoint upper (s : string) : string :=
  match s with
  | EmptyString => EmptyString
  | String c rest => String (upper_char c) (upper rest)
  end.

(** The rule lists of the docstring of [find_files]. *)
Definition rules_second_exists : list Discovery.rule :=
  [ (false, false, lam "bar.rc"); (false, false, lam ".foo.rc") ].

Definition rules_none_exists : list Discovery.rule :=
  [ (false, false, lam "bar.rc"); (false, false, lam ".bar.rc") ].

Definition rules_enforce_none : list Discovery.rule :=
  [ (true, true, Discovery.const_supplier None);
    (true, false, lam ".foo.rc") ].

(** An enforced rule with a missing file, after a rule that cascades and
    after a rule that does not. *)
Definition rules_enforced_reached : list Discovery.rule :=
  [ (false, true, lam "foo.rc"); (true, false, lam "bar.rc");
    (true, false, lam ".foo.rc") ].

Definition rules_enforced_unreached : list Discovery.rule :=
  [ (false, false, lam "foo.rc"); (true, false, lam "bar.rc") ].

(** [load] in the process of the example: the view of a file is its name. *)
Definition load_u (basename : option string) (default : option string)
    (config_file local_path : option string)
    : result (Discovery.loaded string string) :=
  Discovery.load fs_home quote no_environ expanduser_u basename_id "foo.py"
    upper (fun f => Return f) basename default config_file local_path None.

End Examples.

(** * More concrete runs *)
Module MoreExamples.

Import Examples.

(** The cascading example of the docstring of [find_files], a list in
    which every rule cascades, and a match with rules after it. *)
Definition rules_cascade : list Discovery.rule :=
  [ (false, true, lam "foo.rc"); (false, false, lam ".foo.rc") ].

Definition rules_all_cascade : list Discovery.rule :=
  [ (false, true, lam "bar.rc"); (false, true, lam "foo.rc");
    (false, true, lam ".foo.rc") ].

Definition rules_after_match : list Discovery.rule :=
  [ (false, true, lam "foo.rc"); (false, false, lam ".foo.rc");
    (true, false, lam "bar.rc") ].

(** An environment that names the configuration file of [foo]. *)
Definition environ_foo (name : string) : option string :=
  if String.eqb name "FOO_CONFIG_FILENAME" then Some "/home/u/.foo.rc"
  else None.

(** A disk with no file at all. *)
Definition fs_empty (p : string) : bool := false.

(** The view over the structured-mapping file after its first read: the
    backend is object 2 and its root mapping is dict 5. *)
Definition w_yaml_loaded : world := (Config._cfg rt_yaml 0 w_yaml).2.


(** The mappings after [cfg['x'] = 3] on the loaded view. *)
Definition h_yaml_x : list dict :=
  (mdict.aset (dicts w_yaml_loaded) 5 (mdict.tokenize "x") (VInt 3)).2.

(** The mappings after [del cfg['x']] on the view over the script. *)
Definition h_deleted : list dict :=
  (mdict.adel (dicts w_loaded) 2 (mdict.tokenize "x")).2.

End MoreExamples.

(** * Properties of discovery *)
Section DiscoveryProofs.

Import Discovery.

Variable path_exists : string -> bool.
Variable repr : string -> string.

Local Abbreviation loop := (find_files_loop path_exists repr).

Lemma loop_unset e c f rest fs ps :
  f tt = Return None \/ f tt = Return (Some "") ->
  loop ((e, c, f) :: rest) fs ps = loop rest fs ps.
Proof.
  intros [H | H]; cbn [find_files_loop]; rewrite H; reflexivity.
Qed.

Lemma loop_skip_anywhere pre e c f post fs ps :
  f tt = Return None \/ f tt = Return (Some "") ->
  loop (pre ++ (e, c, f) :: post) fs ps = loop (pre ++ post) fs ps.
Proof.
  intros H. revert fs ps.
  induction pre as [| [[e' c'] f'] pre IH]; intros fs ps.
  - apply loop_unset, H.
  - cbn [app find_files_loop].
    destruct (f' tt) as [[s |] | x]; try reflexivity; [| apply IH].
    destruct (String.eqb s ""); [apply IH |].
    destruct (path_exists s); cbn [negb].
    + destruct c'; cbn [negb]; [apply IH | reflexivity].
    + destruct e'; [reflexivity | apply IH].
Qed.

(** The loop only ever appends to [filenames]. *)
Lemma loop_filenames_grow rs : forall fs ps fs' ps',
  loop rs fs ps = Return (fs', ps') -> length fs <= length fs'.
Proof.
  induction rs as [| [[e c] f] rs IH]; intros fs ps fs' ps' H.
  - cbn in H. injection H as <- _. lia.
  - cbn [find_files_loop] in H. cbv zeta in H.
    destruct (f tt) as [[s |] | x]; try discriminate; [| eauto].
    destruct (String.eqb s ""); [eauto |].
    destruct (path_exists s); cbn [negb] in H.
    + destruct c; cbn [negb] in H.
      * apply IH in H. rewrite length_app in H. cbn in H. lia.
      * injection H as <- _. rewrite length_app. cbn. lia.
    + destruct e; [discriminate | eauto].
Qed.

(** With no cascading rule, the loop returns what it had plus the file of
    the first rule whose file exists. *)
Lemma loop_no_cascade rs : forall fs ps fs' ps',
  Forall (fun r => cascaded r = false) rs ->
  loop rs fs ps = Return (fs', ps') ->
  fs' = fs ++ match first_existing path_exists rs with
              | Some f => [f]
              | None => []
              end.
Proof.
  induction rs as [| [[e c] f] rs IH]; intros fs ps fs' ps' Hc H.
  - cbn in *. injection H as <- _. by rewrite app_nil_r.
  - apply Forall_cons in Hc as [Hc1 Hc]. cbn in Hc1. subst c.
    cbn [find_files_loop] in H. cbv zeta in H. cbn [first_existing].
    unfold existing_file, yields, get_filename. cbn [snd].
    destruct (f tt) as [[s |] | x]; try discriminate; [| eauto].
    destruct (String.eqb s ""); [eauto |].
    destruct (path_exists s); cbn [negb] in H.
    + by injection H as <- _.
    + destruct e; [discriminate | eauto].
Qed.

(** What [find_files] returns when no rule cascades. *)
Lemma find_files_no_cascade_result rs raise_on_all_missing l :
  Forall (fun r => cascaded r = false) rs ->
  find_files path_exists repr rs raise_on_all_missing = Return l ->
  l = match first_existing path_exists rs with
      | Some f => [f]
      | None => []
      end.
Proof.
  intros Hc H. unfold find_files in H.
  destruct (loop rs [] []) as [[fs ps] | x] eqn:E; [| discriminate].
  apply (loop_no_cascade _ _ _ _ _ Hc) in E. cbn [app] in E.
  destruct fs; cbn in H; [destruct raise_on_all_missing |]; congruence.
Qed.

(** C1. When every rule has cascade false, a list that [find_files]
    returns has at most one element, and that element is the filename of
    the first rule, in order, whose produced filename exists on disk. *)
Theorem find_files_no_cascade rs raise_on_all_missing l :
  Forall (fun r => cascaded r = false) rs ->
  find_files path_exists repr rs raise_on_all_missing = Return l ->
  length l <= 1 /\
  l = match first_existing path_exists rs with
      | Some f => [f]
      | None => []
      end.
Proof.
  intros Hc H.
  pose proof (find_files_no_cascade_result _ _ _ Hc H) as E.
  split; [| exact E]. rewrite E.
  destruct (first_existing path_exists rs); cbn; lia.
Qed.

(** When no rule enforces existence and every supplier returns, the call
    that tolerates missing files does return. *)
Lemma find_files_returns rs :
  Forall (fun r => enforce_file_existence r = false /\
                   is_raise (get_filename r tt) = false) rs ->
  exists l, find_files path_exists repr rs false = Return l.
Proof.
  intros H. unfold find_files.
  assert (forall fs ps, exists fs' ps', loop rs fs ps = Return (fs', ps'))
    as Hl.
  { induction H as [| [[e c] f] rs [He Hf] _ IH]; intros fs ps.
    - cbn. eauto.
    - cbn in He, Hf. subst e. cbn [find_files_loop].
      destruct (f tt) as [[s |] | x]; try discriminate; [| apply IH].
      destruct (String.eqb s ""); [apply IH |].
      destruct (path_exists s); cbn [negb]; [| apply IH].
      destruct c; cbn [negb]; [apply IH | eauto]. }
  destruct (Hl [] []) as (fs & ps & ->).
  rewrite andb_false_r. eauto.
Qed.

(** The loop goes through rules that pass. *)
Lemma loop_passes pre rest : forall fs ps,
  Forall (fun r => passes path_exists r = true) pre ->
  exists fs' ps', loop (pre ++ rest) fs ps = loop rest fs' ps'.
Proof.
  induction pre as [| [[e c] f] pre IH]; intros fs ps H.
  - cbn. eauto.
  - apply Forall_cons in H as [H1 H].
    unfold passes, yields, get_filename, enforce_file_existence, cascaded
      in H1. cbn [fst snd] in H1.
    cbn [app find_files_loop].
    destruct (f tt) as [[s |] | x]; try discriminate; [| eauto].
    destruct (String.eqb s ""); [eauto |].
    destruct (path_exists s); cbn [negb].
    + subst c. cbn [negb]. eauto.
    + destruct e; [discriminate | eauto].
Qed.

(** C3, amended. A rule that enforces existence and whose supplier returns
    a path that does not exist makes [find_files] fail with the error that
    names this path, whatever the rules after it, when the loop reaches
    it: every rule before it passes (its supplier returns, and it yields
    nothing, or a missing path it does not enforce, or an existing path
    with cascade). *)
Theorem find_files_enforced_missing pre c f post p raise_on_all_missing :
  Forall (fun r => passes path_exists r = true) pre ->
  f tt = Return (Some p) ->
  p <> "" ->
  path_exists p = false ->
  find_files path_exists repr (pre ++ (true, c, f) :: post)
    raise_on_all_missing
  = Raise (ValueError ("File " +:+ repr p +:+ " does not exists.")).
Proof.
  intros Hpre Hf Hp He. unfold find_files.
  destruct (loop_passes pre ((true, c, f) :: post) [] [] Hpre)
    as (fs & ps & ->).
  cbn [find_files_loop]. rewrite Hf.
  apply String.eqb_neq in Hp. rewrite Hp, He. reflexivity.
Qed.

Lemma yielded_paths_cons r rs :
  yielded_paths (r :: rs)
  = match yields r with
    | Some s => s :: yielded_paths rs
    | None => yielded_paths rs
    end.
Proof. reflexivity. Qed.

(** A rule that misses leaves [filenames] as it is and records its path. *)
Lemma loop_unchanged rs : forall fs ps fs' ps',
  loop rs fs ps = Return (fs', ps') ->
  length fs' = length fs ->
  fs' = fs /\ ps' = ps ++ yielded_paths rs.
Proof.
  induction rs as [| [[e c] f] rs IH]; intros fs ps fs' ps' H Hlen.
  - cbn in *. injection H as <- <-. by rewrite app_nil_r.
  - cbn [find_files_loop] in H. cbv zeta in H.
    rewrite yielded_paths_cons.
    unfold yields, get_filename. cbn [snd].
    destruct (f tt) as [[s |] | x]; try discriminate; [| by apply IH].
    destruct (String.eqb s ""); [by apply IH |].
    destruct (path_exists s); cbn [negb] in H.
    + exfalso. destruct c; cbn [negb] in H.
      * apply loop_filenames_grow in H. rewrite length_app in H.
        cbn in H. lia.
      * injection H as <- _. rewrite length_app in Hlen. cbn in Hlen. lia.
    + destruct e; [discriminate |].
      apply IH in H as [-> ->]; [| exact Hlen].
      split; [reflexivity |]. cbn. by rewrite <- app_assoc.
Qed.

(** The loop ends with no filename exactly on rule lists that miss. *)
Lemma loop_misses rs : forall ps,
  Forall (fun r => misses path_exists r = true) rs ->
  loop rs [] ps = Return ([], ps ++ yielded_paths rs).
Proof.
  induction rs as [| [[e c] f] rs IH]; intros ps H.
  - cbn. by rewrite app_nil_r.
  - apply Forall_cons in H as [H1 H]. rewrite yielded_paths_cons.
    unfold misses, yields, get_filename, enforce_file_existence in *.
    cbn [fst snd] in *. cbn [find_files_loop].
    destruct (f tt) as [[s |] | x]; try discriminate; [| by apply IH].
    destruct (String.eqb s ""); [by apply IH |].
    apply andb_prop in H1 as [H1 H2]. apply negb_true_iff in H1, H2.
    rewrite H1, H2. cbn [negb]. rewrite IH by exact H.
    by rewrite <- app_assoc.
Qed.

(** C7. When the loop of [find_files] ends with no filename collected,
    the paths it searched are the paths the rules yielded, in rule order;
    with [raise_on_all_missing] the call fails with the error that lists
    them joined by commas, without it the call returns the empty list. On
    the empty rule list the error lists no path. *)
Theorem find_files_nothing_found rs ps :
  find_files_loop path_exists repr rs [] [] = Return ([], ps) ->
  ps = yielded_paths rs /\
  find_files path_exists repr rs true
  = Raise (ValueError ("No config file was found in those paths: "
                       +:+ join ", " ps +:+ ".")) /\
  find_files path_exists repr rs false = Return [] /\
  find_files path_exists repr [] true
  = Raise (ValueError "No config file was found in those paths: .").
Proof.
  intros H. split; [| split; [| split]].
  - apply loop_unchanged in H as [_ H]; [exact H | reflexivity].
  - unfold find_files. rewrite H. reflexivity.
  - unfold find_files. rewrite H. reflexivity.
  - reflexivity.
Qed.

(** C6. A rule that enforces existence and whose supplier returns no value
    ([None] or the empty string) does not make [find_files] raise: the
    loop goes on with the next rule in the state it had, and the call
    gives what it gives without the rule. *)
Theorem find_files_skips_unset pre c f post raise_on_all_missing :
  f tt = Return None \/ f tt = Return (Some "") ->
  (forall fs ps,
     find_files_loop path_exists repr ((true, c, f) :: post) fs ps
     = find_files_loop path_exists repr post fs ps) /\
  find_files path_exists repr (pre ++ (true, c, f) :: post)
    raise_on_all_missing
  = find_files path_exists repr (pre ++ post) raise_on_all_missing.
Proof.
  intros H. split.
  - intros fs ps. apply loop_unset, H.
  - unfold find_files. by rewrite loop_skip_anywhere.
Qed.

Lemma force_no_cascade_spec rs :
  map (fun '(enforce_file_existence, fun_) =>
         (enforce_file_existence, false, fun_)) rs
  = Spec.force_no_cascade rs.
Proof.
  unfold Spec.force_no_cascade. apply map_ext. by intros [e f].
Qed.

Lemma force_no_cascade_cascaded rs :
  Forall (fun r => cascaded r = false) (Spec.force_no_cascade rs).
Proof.
  unfold Spec.force_no_cascade. apply Forall_map, Forall_forall.
  by intros [e f] _.
Qed.

(** C8. [find_file] gives what the specification's wording gives:
    [find_files] with cascade forced false on every rule, then the first
    element of the list or [None] for the empty list. The list has at most
    one element, and it is empty only when missing files are tolerated. *)
Theorem find_file_refines rs raise_on_all_missing :
  find_file path_exists repr rs raise_on_all_missing
  = Spec.find_file path_exists repr rs raise_on_all_missing /\
  forall l,
    find_files path_exists repr (Spec.force_no_cascade rs)
      raise_on_all_missing = Return l ->
    length l <= 1 /\ (l = [] -> raise_on_all_missing = false).
Proof.
  split.
  - unfold find_file, Spec.find_file. rewrite force_no_cascade_spec.
    destruct (find_files _ _ _ _) as [[| x l] | e]; reflexivity.
  - intros l H. split.
    + rewrite (find_files_no_cascade_result _ _ _
                 (force_no_cascade_cascaded rs) H).
      destruct (first_existing _ _); cbn; lia.
    + intros ->. unfold find_files in H.
      destruct (find_files_loop _ _ _ _ _) as [[fs ps] | x];
        [| discriminate].
      destruct fs; [| discriminate].
      destruct raise_on_all_missing; [discriminate | reflexivity].
Qed.

End DiscoveryProofs.

(** ** The entry point [load] *)
Section LoadProofs.

Import Discovery.

Variable path_exists : string -> bool.
Variable repr : string -> string.
Variable environ_get : string -> option string.
Variable expanduser : string -> string.
Variable os_path_basename : string -> string.
Variable argv0 : string.
Variable upper : string -> string.
Context {C D : Type}.
Variable config_factory : string -> result C.

(** [load] runs [find_files] on the policy, raising on nothing found
    when no default was given; an error propagates, an empty list gives
    the default, and any other list goes whole to [load_files]. *)
Lemma load_outcomes basename (default : option D) config_file local_path
    config_struct :
  load path_exists repr environ_get expanduser os_path_basename argv0 upper
    config_factory basename default config_file local_path config_struct
  = match find_files path_exists repr
            match config_struct with
            | Some cs => cs
            | None =>
                default_config_struct environ_get expanduser upper
                  (infer_basename os_path_basename argv0 basename)
                  config_file local_path
            end
            match default with None => true | Some _ => false end with
    | Raise e => Raise e
    | Return [] => Return (Default default)
    | Return fs =>
        match load_files config_factory fs with
        | Raise e => Raise e
        | Return m => Return (Overlay m)
        end
    end.
Proof.
  unfold load. destruct (find_files _ _ _ _) as [[| f fs] | e]; reflexivity.
Qed.

(** The policy starts with the override file, then the file named by
    the environment, both enforced and without cascade; the rules after
    them do not enforce existence and cascade. *)
Lemma default_config_struct_flags basename config_file local_path :
  map fst (take 2 (default_config_struct environ_get expanduser upper
                     basename config_file local_path))
  = [(true, false); (true, false)] /\
  Forall (fun r => r.1 = (false, true))
    (drop 2 (default_config_struct environ_get expanduser upper
               basename config_file local_path)).
Proof.
  unfold default_config_struct. split; [reflexivity |].
  destruct (truthy local_path); cbn; repeat constructor.
Qed.

End LoadProofs.

(** ** Discovery on the directory of the docstrings *)
Section DiscoveryRuns.

Import Discovery Examples.

(** The second example of the docstring: [bar.rc] is missing, [.foo.rc]
    exists. *)
Lemma find_files_no_cascade_witness :
  Forall (fun r => cascaded r = false) rules_second_exists /\
  find_files fs_foo quote rules_second_exists true = Return [".foo.rc"] /\
  (length [".foo.rc"] <= 1 /\
   [".foo.rc"] = match first_existing fs_foo rules_second_exists with
                 | Some f => [f]
                 | None => []
                 end).
Proof.
  assert (Forall (fun r => cascaded r = false) rules_second_exists) as Hc
    by (repeat constructor).
  split; [exact Hc |]. split; [reflexivity |].
  exact (find_files_no_cascade fs_foo quote rules_second_exists true
           [".foo.rc"] Hc eq_refl).
Defined.

(** An enforced rule with a missing file, reached through a rule that
    cascades. *)
Lemma find_files_enforced_missing_witness :
  find_files fs_foo quote rules_enforced_reached true
  = Raise (ValueError "File 'bar.rc' does not exists.").
Proof.
  apply (find_files_enforced_missing fs_foo quote
           [ (false, true, lam "foo.rc") ] false (lam "bar.rc")
           [ (true, false, lam ".foo.rc") ] "bar.rc" true).
  - repeat constructor.
  - reflexivity.
  - discriminate.
  - reflexivity.
Defined.

(** C3 as stated fails: the list holds an enforced rule whose path is
    missing, and the call returns the file of the rule before it. *)
Lemma find_files_enforced_unreached :
  rules_enforced_unreached !! 1 = Some (true, false, lam "bar.rc") /\
  lam "bar.rc" tt = Return (Some "bar.rc") /\
  fs_foo "bar.rc" = false /\
  find_files fs_foo quote rules_enforced_unreached true = Return ["foo.rc"].
Proof. repeat split. Qed.

(** No file exists: the error of the docstring, or the empty list. *)
Lemma find_files_nothing_found_witness :
  find_files fs_foo quote rules_none_exists true
  = Raise (ValueError
             "No config file was found in those paths: bar.rc, .bar.rc.") /\
  find_files fs_foo quote rules_none_exists false = Return [].
Proof.
  pose proof (find_files_nothing_found fs_foo quote rules_none_exists
                ["bar.rc"; ".bar.rc"] eq_refl) as (_ & H1 & H2 & _).
  split; [exact H1 | exact H2].
Defined.

(** The enforced rule whose lambda returns [None] is skipped. *)
Lemma find_files_skips_unset_witness :
  find_files fs_foo quote rules_enforce_none true
  = find_files fs_foo quote [ (true, false, lam ".foo.rc") ] true /\
  find_files fs_foo quote rules_enforce_none true = Return [".foo.rc"].
Proof.
  split; [| reflexivity].
  exact (proj2 (find_files_skips_unset fs_foo quote [] true
                  (const_supplier None) [ (true, false, lam ".foo.rc") ]
                  true (or_introl eq_refl))).
Defined.

(** C4, on the code. Without [local_path] the policy has five rules, the
    home-directory rule twice: a home file that exists is discovered
    twice and [load_files] gets it twice. With [local_path] the rule added
    calls a lambda over an unbound name, and [load] fails with
    [NameError] once the search reaches it. *)
Theorem load_default_policy_slips :
  length (default_config_struct no_environ expanduser_u upper "foo"
            None None) = 5 /\
  find_files fs_home quote
    (default_config_struct no_environ expanduser_u upper "foo" None None)
    true
  = Return ["/home/u/.foo.rc"; "/home/u/.foo.rc"] /\
  load_u None None None None
  = Return (Overlay (MultiDictReader
                       ["/home/u/.foo.rc"; "/home/u/.foo.rc"])) /\
  load_u (Some "foo") (Some "fallback") None (Some "here")
  = Raise (NameError "b").
Proof. repeat split. Qed.

End DiscoveryRuns.

(** * Properties of the detection of the dialect *)
Section BackendProofs.

Import Backend.

Variable rt : runtime.

Lemma construct_constructible cm filename w :
  constructible rt cm = true ->
  construct rt cm filename w = __init__ cm filename w.
Proof.
  destruct cm; cbn; try reflexivity.
  - destruct (configobj rt); [reflexivity | discriminate].
  - destruct (yaml rt); [reflexivity | discriminate].
Qed.

Lemma construct_not_constructible cm filename w :
  constructible rt cm = false ->
  exists e, construct rt cm filename w = (Raise e, w).
Proof.
  destruct cm; cbn; try discriminate.
  - destruct (configobj rt); [discriminate | eauto].
  - destruct (yaml rt); [discriminate | eauto].
Qed.

Lemma trial_success_constructible cm filename w o w' :
  trial rt cm filename w = (Return o, w') -> constructible rt cm = true.
Proof.
  intros H. destruct (constructible rt cm) eqn:E; [reflexivity |].
  destruct (construct_not_constructible cm filename w E) as [e He].
  unfold trial, bind in H. rewrite He in H. discriminate.
Qed.

(** The body of the [try]: the trial, then a second construction. *)
Lemma try_body cm filename w :
  (o <- construct rt cm filename ;; _cfg rt o ;;; construct rt cm filename) w
  = match trial rt cm filename w with
    | (Return _, w') => construct rt cm filename w'
    | (Raise e, w') => (Raise e, w')
    end.
Proof.
  unfold trial, bind.
  destruct (construct rt cm filename w) as [[o | e] w1]; [| reflexivity].
  destruct (_cfg rt o w1) as [[r | e] w2]; reflexivity.
Qed.

(** The loop returns a new instance of the first class whose trial
    succeeds, built in the state the trials leave. *)
Lemma choose_loop_first_successful cms filename : forall w,
  match Spec.first_successful rt cms filename w with
  | Some (cm, w1) =>
      choose_loop rt cms filename w = __init__ cm filename w1
  | None =>
      exists w',
        choose_loop rt cms filename w
        = (Raise (SyntaxError
                    ("No config parser manage to read config file "
                     +:+ py_repr rt filename +:+ ".")), w')
  end.
Proof.
  induction cms as [| cm cms IH]; intros w.
  - cbn. eauto.
  - cbn [Spec.first_successful choose_loop]. unfold try_except.
    rewrite try_body.
    destruct (trial rt cm filename w) as [[o | e] w1] eqn:E.
    + rewrite construct_constructible
        by (eapply trial_success_constructible; exact E).
      reflexivity.
    + apply IH.
Qed.

Lemma first_successful_in cms filename : forall w cm w1,
  Spec.first_successful rt cms filename w = Some (cm, w1) ->
  cm ∈ cms /\ constructible rt cm = true.
Proof.
  induction cms as [| c cms IH]; intros w cm w1 H; [discriminate |].
  cbn in H. destruct (trial rt c filename w) as [[o | e] w'] eqn:E.
  - injection H as -> ->. split; [left |].
    eapply trial_success_constructible; exact E.
  - apply IH in H as [H1 H2]. split; [by right | exact H2].
Qed.

(** An instance whose memo is empty calls its parser on access. *)
Lemma first_access_parses cm filename w o :
  cm <> Cfg ->
  constructible rt cm = true ->
  cfgs w !! o = Some (mk_cfg cm filename None) ->
  parses (_cfg rt o w).2 = parses w ++ [(cm, filename)].
Proof.
  intros Hcm Hc Ho. unfold _cfg, cached_property, bind, deref.
  rewrite Ho. cbn [cfg_cache].
  unfold compute_cfg. cbn [cfg_class_of _filename].
  destruct cm; [congruence | | |]; cbn in Hc.
  - unfold bind, modify, lift.
    destruct (py_exec rt filename) as [cfg | e]; [| reflexivity].
    unfold store_dict, ret. cbn [dicts log_parse].
    destruct (alloc_dict _ _) as [r h]. reflexivity.
  - destruct (configobj rt) as [load |]; [| discriminate].
    unfold custom_load, bind, modify, lift.
    destruct (load filename) as [cfg | e]; [| reflexivity].
    unfold store_dict, ret. cbn [dicts log_parse].
    destruct (alloc_dict _ _) as [r h]. reflexivity.
  - destruct (yaml rt) as [load |]; [| discriminate].
    unfold custom_load, bind, modify, lift.
    destruct (load filename) as [cfg | e]; [| reflexivity].
    unfold store_dict, ret. cbn [dicts log_parse].
    destruct (alloc_dict _ _) as [r h]. reflexivity.
Qed.

(** C2, amended. [choose_cfg_manager] tries [PyCfg], [ConfigObjCfg],
    [YamlCfg] in this order, each by constructing it and forcing a trial
    load, and selects the first whose trial does not raise. What it
    returns is a second, newly constructed instance of that class: its
    memo is empty, and the first access to its mapping calls the parser on
    the file once more. When every trial raises the call fails with the
    error that names the file. *)
Theorem choose_cfg_manager_first_successful filename w :
  match Spec.first_successful rt _GENERIC_CFG filename w with
  | Some (cm, w1) =>
      let o := length (cfgs w1) in
      let w' := set_cfgs (cfgs w1 ++ [mk_cfg cm filename None]) w1 in
      choose_cfg_manager rt filename w = (Return o, w') /\
      cfgs w' !! o = Some (mk_cfg cm filename None) /\
      parses (_cfg rt o w').2 = parses w' ++ [(cm, filename)]
  | None =>
      exists w',
        choose_cfg_manager rt filename w
        = (Raise (SyntaxError
                    ("No config parser manage to read config file "
                     +:+ py_repr rt filename +:+ ".")), w')
  end.
Proof.
  pose proof (choose_loop_first_successful _GENERIC_CFG filename w) as H.
  destruct (Spec.first_successful rt _GENERIC_CFG filename w)
    as [[cm w1] |] eqn:E; [| exact H].
  apply first_successful_in in E as [Hin Hc].
  assert (cfgs (set_cfgs (cfgs w1 ++ [mk_cfg cm filename None]) w1)
            !! length (cfgs w1) = Some (mk_cfg cm filename None)) as Ho.
  { cbn. rewrite lookup_app_r by lia. by rewrite Nat.sub_diag. }
  cbv zeta. split; [exact H |]. split; [exact Ho |].
  apply first_access_parses; [| exact Hc | exact Ho].
  intros ->. unfold _GENERIC_CFG in Hin.
  repeat (apply elem_of_cons in Hin as [Hin | Hin]; [discriminate |]).
  by apply elem_of_nil in Hin.
Qed.

End BackendProofs.

(** C2 as stated fails: on a file the script dialect reads, the instance
    returned is the second one built; the memo of the first holds the
    mapping of the trial, the memo of the one returned is empty, and the
    first access to its mapping runs the parser a second time. *)
Lemma choose_cfg_manager_returns_unloaded :
  exists w,
    Backend.choose_cfg_manager Examples.rt_py "app.rc" empty_world
    = (Return 1, w) /\
    cfgs w = [mk_cfg PyCfg "app.rc" (Some 2); mk_cfg PyCfg "app.rc" None] /\
    parses w = [(PyCfg, "app.rc")] /\
    parses (Backend._cfg Examples.rt_py 1 w).2
    = [(PyCfg, "app.rc"); (PyCfg, "app.rc")].
Proof. eexists. repeat split. Qed.

(** * Properties of the nested mappings *)
Section HeapProofs.

Import mdict.

Lemma dict_get_set_eq d k v : dict_get (dict_set d k v) k = Some v.
Proof.
  induction d as [| [k' v'] d IH]; cbn.
  - by rewrite String.eqb_refl.
  - destruct (String.eqb k' k) eqn:E; cbn; rewrite E; [reflexivity | exact IH].
Qed.

Lemma dict_get_set_ne d k k' v :
  k <> k' -> dict_get (dict_set d k v) k' = dict_get d k'.
Proof.
  intros Hne. pose proof Hne as Hb. apply String.eqb_neq in Hb.
  induction d as [| [k0 v0] d IH]; cbn.
  - by rewrite Hb.
  - destruct (String.eqb k0 k) eqn:E; cbn.
    + apply String.eqb_eq in E as ->. by rewrite Hb.
    + by rewrite IH.
Qed.

Lemma walk_empty h r ks x :
  h !! r = Some [] -> x ∈ walk h r ks -> x = r.
Proof.
  intros Hr. destruct ks as [| k ks]; cbn [walk]; [by intros ?%elem_of_nil |].
  rewrite Hr. cbn [dict_get]. intros H.
  apply elem_of_cons in H as [H | H]; [exact H |].
  by apply elem_of_nil in H.
Qed.

Lemma aset_frame ks : forall h r v r0,
  r0 ∉ walk h r ks -> r0 < length h ->
  (aset h r ks v).2 !! r0 = h !! r0.
Proof.
  induction ks as [| k ks IH]; intros h r v r0 Hw Hlt; [reflexivity |].
  cbn [aset]. cbn [walk] in Hw. apply not_elem_of_cons in Hw as [Hne Hw].
  destruct (h !! r) as [d |] eqn:Hr; [| reflexivity].
  destruct ks as [| k2 ks]; cbn [snd].
  - by rewrite list_lookup_insert_ne.
  - destruct (dict_get d k) as [[| | | r'] |]; try reflexivity.
    + by apply IH.
    + rewrite IH.
      * rewrite lookup_app_l by (rewrite length_insert; lia).
        by rewrite list_lookup_insert_ne.
      * intros Hin. apply walk_empty in Hin; [lia |].
        rewrite lookup_app_r by (rewrite length_insert; lia).
        by rewrite length_insert, Nat.sub_diag.
      * rewrite length_app, length_insert. lia.
Qed.

Lemma aget_aset ks : forall h r v h',
  aset h r ks v = (Return tt, h') ->
  NoDup (walk h r ks) ->
  aget h' (VDict r) ks = Return v.
Proof.
  induction ks as [| k ks IH]; intros h r v h' H Hnd; [discriminate |].
  cbn [aset] in H. cbn [walk] in Hnd. apply NoDup_cons in Hnd as [Hnin Hnd].
  destruct (h !! r) as [d |] eqn:Hr; [| discriminate].
  assert (r < length h) as Hlt by (by eapply lookup_lt_Some).
  destruct ks as [| k2 ks].
  - injection H as <-. cbn. rewrite list_lookup_insert_eq by exact Hlt.
    by rewrite dict_get_set_eq.
  - cbn [aget]. destruct (dict_get d k) as [[| | | r'] |] eqn:Hk;
      try discriminate.
    + pose proof (aset_frame (k2 :: ks) h r' v r Hnin Hlt) as Hf.
      rewrite H in Hf. cbn [snd] in Hf. rewrite Hf, Hr, Hk.
      by apply (IH h).
    + set (h1 := <[r := dict_set d k (VDict (length h))]> h ++ [[]]) in *.
      assert (h1 !! length h = Some []) as Hnew.
      { unfold h1. rewrite lookup_app_r by (rewrite length_insert; lia).
        by rewrite length_insert, Nat.sub_diag. }
      assert (h' !! r = Some (dict_set d k (VDict (length h)))) as Hr'.
      { pose proof (aset_frame (k2 :: ks) h1 (length h) v r) as Hf.
        rewrite H in Hf. cbn [snd] in Hf. rewrite Hf.
        - unfold h1. rewrite lookup_app_l by (rewrite length_insert; lia).
          by rewrite list_lookup_insert_eq.
        - intros Hin. apply walk_empty in Hin; [lia | exact Hnew].
        - unfold h1. rewrite length_app, length_insert. lia. }
      rewrite Hr', dict_get_set_eq. apply (IH h1); [exact H |].
      cbn [walk]. rewrite Hnew. cbn. apply NoDup_singleton.
Qed.

End HeapProofs.

(** * Properties of the tokenizer *)
Section TokenizerProofs.

Import mdict.

Lemma append_cons c s t : String c s +:+ t = String c (s +:+ t).
Proof. reflexivity. Qed.

Lemma append_nil_r s : s +:+ "" = s.
Proof.
  induction s as [| c s IH]; [reflexivity |].
  by rewrite append_cons, IH.
Qed.

Lemma append_snoc s c t : (s +:+ String c "") +:+ t = s +:+ String c t.
Proof.
  induction s as [| c' s IH]; [reflexivity |].
  by rewrite !append_cons, IH.
Qed.

(** A plain key is read as it is, up to what follows it. *)
Lemma tokenize_from_plain s : forall cur rest,
  Spec.plain s = true ->
  tokenize_from cur (s +:+ rest) = tokenize_from (cur +:+ s) rest.
Proof.
  induction s as [| c s IH]; intros cur rest Hs.
  - by rewrite append_nil_r.
  - cbn in Hs. apply andb_prop in Hs as [Hc Hs].
    apply andb_prop in Hc as [Hb Hd]. apply negb_true_iff in Hb, Hd.
    rewrite append_cons. cbn [tokenize_from]. rewrite Hb, Hd.
    rewrite IH by exact Hs. by rewrite append_snoc.
Qed.

Lemma tokenize_plain a : Spec.plain a = true -> tokenize a = [a].
Proof.
  intros Ha. unfold tokenize.
  rewrite <- (append_nil_r a) at 1. by rewrite tokenize_from_plain.
Qed.

Lemma tokenize_dotted a b :
  Spec.plain a = true -> Spec.plain b = true ->
  tokenize (a +:+ "." +:+ b) = [a; b].
Proof.
  intros Ha Hb. unfold tokenize. rewrite tokenize_from_plain by exact Ha.
  change ("." +:+ b) with (String "."%char b). cbn [tokenize_from].
  change (Ascii.eqb "." "\") with false. change (Ascii.eqb "." ".") with true.
  cbn match. f_equal. by apply tokenize_plain.
Qed.






End TokenizerProofs.

(** * Properties of the views *)
Section ViewProofs.

Variable rt : runtime.

(** The parsers add objects and log their call; they leave the instances
    as they are. *)
Lemma store_dict_frame items w :
  cfgs (Backend.store_dict items w).2 = cfgs w /\
  configs (Backend.store_dict items w).2 = configs w.
Proof. unfold Backend.store_dict. by destruct (alloc_dict _ _). Qed.

Lemma custom_load_frame cls load filename w :
  cfgs (Backend.custom_load cls load filename w).2 = cfgs w /\
  configs (Backend.custom_load cls load filename w).2 = configs w.
Proof.
  destruct load as [load |]; [| done].
  unfold Backend.custom_load, bind, modify, lift.
  destruct (load filename) as [items | e]; [| done].
  apply (store_dict_frame items (log_parse (cls, filename) w)).
Qed.

Lemma compute_cfg_frame o w :
  cfgs (Backend.compute_cfg rt o w).2 = cfgs w /\
  configs (Backend.compute_cfg rt o w).2 = configs w.
Proof.
  unfold Backend.compute_cfg. destruct (cfg_class_of o).
  - done.
  - unfold bind, modify, lift.
    destruct (py_exec rt (_filename o)) as [items | e]; [| done].
    apply (store_dict_frame _ (log_parse (PyCfg, _filename o) w)).
  - apply custom_load_frame.
  - apply custom_load_frame.
Qed.

(** Reading the mapping of a backend keeps the views, and the class of
    every backend. *)
Lemma backend_cfg_frame o w :
  configs (Backend._cfg rt o w).2 = configs w /\
  forall m bo, cfgs w !! m = Some bo ->
    exists bo', cfgs (Backend._cfg rt o w).2 !! m = Some bo' /\
                cfg_class_of bo' = cfg_class_of bo.
Proof.
  unfold Backend._cfg, cached_property, bind, Backend.deref.
  destruct (cfgs w !! o) as [ob |] eqn:Ho; [| by eauto].
  destruct (cfg_cache ob); [by eauto |].
  pose proof (compute_cfg_frame ob w) as [Hc Hv].
  destruct (Backend.compute_cfg rt ob w) as [[r | e] w1]; cbn [snd] in *.
  - unfold modify, ret. cbn. split; [exact Hv |].
    intros m bo Hm. rewrite Hc.
    destruct (decide (m = o)) as [-> | Hne].
    + rewrite list_lookup_insert_eq by (by eapply lookup_lt_Some).
      eexists. split; [reflexivity |]. cbn. congruence.
    + rewrite list_lookup_insert_ne by done. eauto.
  - split; [exact Hv |]. intros m bo Hm. rewrite Hc. eauto.
Qed.

(** After a first access that returns, the view holds the mapping in its
    memo; nothing else of the views changes. *)
Lemma config_cfg_inv self w dct w0 c :
  configs w !! self = Some c ->
  Config._cfg rt self w = (Return dct, w0) ->
  configs w0
  = <[self := mk_config (_prefix c) (_cfg_manager c) (_provided_cfg c)
                        (Some dct)]> (configs w) /\
  forall m bo, cfgs w !! m = Some bo ->
    exists bo', cfgs w0 !! m = Some bo' /\
                cfg_class_of bo' = cfg_class_of bo.
Proof.
  intros Hc H.
  unfold Config._cfg, cached_property, bind, Config.deref in H.
  rewrite Hc in H.
  destruct c as [pre m pr [memo |]]; cbn in *.
  - injection H as <- <-. split; [| by eauto].
    symmetry. by apply list_insert_id.
  - pose proof (backend_cfg_frame m w) as [Hv Hcl].
    destruct pr as [p |].
    + unfold get in H. destruct (dicts w !! p) as [[| kv d] |] eqn:Hp.
      * destruct (Backend._cfg rt m w) as [[r | e] w1]; [| discriminate].
        cbn in H. injection H as -> <-. cbn in *. by rewrite Hv.
      * cbn in H. injection H as -> <-. cbn. by eauto.
      * discriminate.
    + destruct (Backend._cfg rt m w) as [[r | e] w1]; [| discriminate].
      cbn in H. injection H as -> <-. cbn in *. by rewrite Hv.
Qed.

Lemma config_cfg_memo self w c dct :
  configs w !! self = Some c -> config_cache c = Some dct ->
  Config._cfg rt self w = (Return dct, w).
Proof.
  intros Hc Hm. unfold Config._cfg, cached_property, bind, Config.deref.
  by rewrite Hc, Hm.
Qed.

(** A view whose memo is empty and that was given a mapping reads this
    mapping when it has items, and the mapping of the backend when it has
    none. *)
Lemma config_cfg_provided self w c p d :
  configs w !! self = Some c -> config_cache c = None ->
  _provided_cfg c = Some p -> dicts w !! p = Some d -> d <> [] ->
  Config._cfg rt self w
  = (Return p,
     set_configs (<[self := mk_config (_prefix c) (_cfg_manager c)
                                      (Some p) (Some p)]> (configs w)) w).
Proof.
  intros Hc Hm Hp Hd Hne.
  unfold Config._cfg, cached_property, bind, Config.deref, get.
  rewrite Hc, Hm, Hp, Hd. destruct d; [done | reflexivity].
Qed.

Lemma config_cfg_fallback self w c p bo root :
  configs w !! self = Some c -> config_cache c = None ->
  _provided_cfg c = Some p -> dicts w !! p = Some [] ->
  cfgs w !! _cfg_manager c = Some bo -> cfg_cache bo = Some root ->
  Config._cfg rt self w
  = (Return root,
     set_configs (<[self := mk_config (_prefix c) (_cfg_manager c)
                                      (Some p) (Some root)]> (configs w)) w).
Proof.
  intros Hc Hm Hp Hd Hbo Hroot.
  unfold Config._cfg, cached_property, bind, Config.deref, get.
  rewrite Hc, Hm, Hp, Hd.
  unfold Backend._cfg, cached_property, bind, Backend.deref.
  by rewrite Hbo, Hroot.
Qed.

(** Item access is the walk in the state the first read leaves. *)
Lemma getitem_after_cfg self label w c dct w0 :
  configs w !! self = Some c ->
  Config._cfg rt self w = (Return dct, w0) ->
  Config.__getitem__ rt self label w = Spec.getitem_result w0 c dct label.
Proof.
  intros Hc H. pose proof (config_cfg_inv _ _ _ _ _ Hc H) as [Hv _].
  unfold Config.__getitem__, Config._mcfg, bind. rewrite H.
  unfold mdict.__getitem__, Spec.getitem_result.
  destruct (mdict.aget _ _ _) as [[| n | s | r] | e]; try reflexivity.
  unfold Config.deref. rewrite Hv.
  rewrite list_lookup_insert_eq by (by eapply lookup_lt_Some).
  cbn. unfold bind, ret, Config.__init__, bind, ret. cbn.
  by rewrite Hv.
Qed.

Lemma getitem_result_fst w c dct label :
  (Spec.getitem_result w c dct label).1
  = Spec.lookup_item (dicts w) dct label (length (configs w)).
Proof.
  unfold Spec.getitem_result, Spec.lookup_item.
  by destruct (mdict.aget _ _ _) as [[| n | s | r] | e].
Qed.

(** All the reads of a view go to the mapping its first read returns. *)
Lemma reads_intro c w o dct w0 d :
  configs w !! c = Some o ->
  Config._cfg rt c w = (Return dct, w0) ->
  dicts w0 = dicts w ->
  dicts w !! dct = Some d ->
  Spec.reads rt c w dct d.
Proof.
  intros Hc H Hd Hdct.
  pose proof (config_cfg_inv _ _ _ _ _ Hc H) as [Hv _].
  assert ((Config.__iter__ rt c w).1 = Return (dict_keys d)) as Hiter.
  { unfold Config.__iter__, bind, get. rewrite H, Hd, Hdct. reflexivity. }
  repeat split.
  - by rewrite H.
  - exact Hiter.
  - intros k. unfold Config.__contains__, bind.
    destruct (Config.__iter__ rt c w) as [[keys | e] w']; cbn in Hiter;
      [| discriminate].
    by injection Hiter as ->.
  - intros k. rewrite (getitem_after_cfg _ _ _ _ _ _ Hc H).
    rewrite getitem_result_fst, Hd, Hv, length_insert. reflexivity.
Qed.

(** What item access leaves when it returns a view. *)
Lemma getitem_view_inv parent label w c w1 :
  Config.__getitem__ rt parent label w = (Return (Config.View c), w1) ->
  exists pc dct w0 p,
    configs w !! parent = Some pc /\
    Config._cfg rt parent w = (Return dct, w0) /\
    mdict.aget (dicts w0) (VDict dct) (mdict.tokenize label)
    = Return (VDict p) /\
    c = length (configs w0) /\
    w1 = set_configs
           (configs w0
            ++ [mk_config (_prefix pc ++ [label]) (_cfg_manager pc) (Some p)
                          None]) w0.
Proof.
  intros H.
  destruct (configs w !! parent) as [pc |] eqn:Hpc.
  - destruct (Config._cfg rt parent w) as [[dct | e] w0] eqn:Hcfg.
    + rewrite (getitem_after_cfg _ _ _ _ _ _ Hpc Hcfg) in H.
      unfold Spec.getitem_result in H.
      destruct (mdict.aget _ _ _) as [[| n | s | r] | e] eqn:Hget;
        try discriminate.
      injection H as <- <-. by exists pc, dct, w0, r.
    + unfold Config.__getitem__, Config._mcfg, bind in H.
      rewrite Hcfg in H. discriminate.
  - unfold Config.__getitem__, Config._mcfg, Config._cfg, cached_property,
      bind, Config.deref in H.
    rewrite Hpc in H. discriminate.
Qed.

(** C10. A view obtained by descending into a nested mapping holds this
    mapping as its provided one, its memo empty. When the mapping has
    items, the reads of the view (its [_cfg], iteration, containment and
    item access) go to it. When it is empty the guard fails and the reads
    go to the root mapping of the backend: the view shows the keys of the
    root. *)
Theorem descended_view_guard parent label w c w1 :
  Config.__getitem__ rt parent label w = (Return (Config.View c), w1) ->
  exists o p,
    configs w1 !! c = Some o /\
    _provided_cfg o = Some p /\
    config_cache o = None /\
    (exists dct w0,
       Config._cfg rt parent w = (Return dct, w0) /\
       mdict.aget (dicts w0) (VDict dct) (mdict.tokenize label)
       = Return (VDict p) /\
       dicts w1 = dicts w0) /\
    (forall d, dicts w1 !! p = Some d -> d <> [] -> Spec.reads rt c w1 p d) /\
    (dicts w1 !! p = Some [] ->
     forall bo root droot,
       cfgs w1 !! _cfg_manager o = Some bo ->
       cfg_cache bo = Some root ->
       dicts w1 !! root = Some droot ->
       Spec.reads rt c w1 root droot).
Proof.
  intros H.
  apply getitem_view_inv in H
    as (pc & dct & w0 & p & _ & Hcfg & Hget & -> & ->).
  set (o := mk_config (_prefix pc ++ [label]) (_cfg_manager pc) (Some p)
                      None).
  set (w1 := set_configs (configs w0 ++ [o]) w0).
  assert (configs w1 !! length (configs w0) = Some o) as Hnew.
  { cbn. rewrite lookup_app_r by lia. by rewrite Nat.sub_diag. }
  exists o, p.
  split; [exact Hnew |]. split; [reflexivity |]. split; [reflexivity |].
  split; [by exists dct, w0 |].
  split.
  - intros d Hd Hne.
    pose proof (config_cfg_provided _ w1 o p d Hnew eq_refl eq_refl Hd Hne)
      as Hcfg1.
    exact (reads_intro _ _ _ _ _ _ Hnew Hcfg1 eq_refl Hd).
  - intros Hd bo root droot Hbo Hroot Hdroot.
    pose proof (config_cfg_fallback _ w1 o p bo root Hnew eq_refl eq_refl
                  Hd Hbo Hroot) as Hcfg1.
    exact (reads_intro _ _ _ _ _ _ Hnew Hcfg1 eq_refl Hdroot).
Qed.

(** C5. On a view over a read-only dialect, when the assignment in memory
    goes through, [__setitem__] raises the error of the [save] of [Cfg]
    and leaves the state the assignment made. When the walk of the path
    goes through distinct mappings, item access at the same path on the
    same view then gives the value assigned: the value itself, or for a
    mapping a new view over it. *)
Theorem setitem_read_only self label v w c bo dct w0 h1 :
  configs w !! self = Some c ->
  cfgs w !! _cfg_manager c = Some bo ->
  Spec.read_only (cfg_class_of bo) = true ->
  Config._cfg rt self w = (Return dct, w0) ->
  mdict.aset (dicts w0) dct (mdict.tokenize label) v = (Return tt, h1) ->
  NoDup (mdict.walk (dicts w0) dct (mdict.tokenize label)) ->
  Config.assign rt self label v w = (Return tt, set_dicts h1 w0) /\
  Config.__setitem__ rt self label v w
  = (Raise NotImplementedError, set_dicts h1 w0) /\
  mdict.aget h1 (VDict dct) (mdict.tokenize label) = Return v /\
  (Config.__getitem__ rt self label (set_dicts h1 w0)).1
  = Return (Spec.item_of v (length (configs w0))) /\
  forall r, v = VDict r ->
    configs (Config.__getitem__ rt self label (set_dicts h1 w0)).2
      !! length (configs w0)
    = Some (mk_config (_prefix c ++ [label]) (_cfg_manager c) (Some r) None).
Proof.
  intros Hc Hbo Hro Hcfg Hset Hnd.
  pose proof (config_cfg_inv _ _ _ _ _ Hc Hcfg) as [Hv Hcl].
  destruct (Hcl _ _ Hbo) as (bo' & Hbo' & Hclass).
  assert (self < length (configs w)) as Hlt by (by eapply lookup_lt_Some).
  set (c' := mk_config (_prefix c) (_cfg_manager c) (_provided_cfg c)
                       (Some dct)) in *.
  assert (configs (set_dicts h1 w0) !! self = Some c') as Hc'.
  { cbn. rewrite Hv. by apply list_lookup_insert_eq. }
  assert (Config.assign rt self label v w = (Return tt, set_dicts h1 w0))
    as Hassign.
  { unfold Config.assign, Config._mcfg, bind. rewrite Hcfg.
    unfold mdict.__setitem__. by rewrite Hset. }
  pose proof (aget_aset _ _ _ _ _ Hset Hnd) as Hget.
  assert (Config.__getitem__ rt self label (set_dicts h1 w0)
          = Spec.getitem_result (set_dicts h1 w0) c' dct label) as Hitem.
  { apply getitem_after_cfg; [exact Hc' |].
    by apply (config_cfg_memo self _ c'). }
  split; [exact Hassign |]. split; [| split; [exact Hget | split]].
  - unfold Config.__setitem__, bind. rewrite Hassign.
    unfold Config.deref. rewrite Hc'. cbn [_cfg_manager c'].
    unfold Backend.save, bind, Backend.deref. cbn [cfgs set_dicts].
    rewrite Hbo'. rewrite Hclass.
    by destruct (cfg_class_of bo).
  - rewrite Hitem. unfold Spec.getitem_result. cbn [dicts set_dicts].
    rewrite Hget. by destruct v.
  - intros r ->. rewrite Hitem. unfold Spec.getitem_result.
    cbn [dicts set_dicts]. rewrite Hget. cbn.
    rewrite lookup_app_r by lia. by rewrite Nat.sub_diag.
Qed.

Lemma config_cfg_deref self w dct w0 :
  Config._cfg rt self w = (Return dct, w0) ->
  exists c, configs w !! self = Some c.
Proof.
  intros H. unfold Config._cfg, cached_property, bind, Config.deref in H.
  destruct (configs w !! self) as [c |]; [by eauto | discriminate].
Qed.

Lemma lookup_new_view (l : list config_object) o :
  (l ++ [o]) !! length l = Some o.
Proof. rewrite lookup_app_r by lia. by rewrite Nat.sub_diag. Qed.





End ViewProofs.

(** ** Views over the script of the docstrings *)
Section ViewRuns.

Import Examples.

(** [find_file] on the second example of its docstring. *)
Lemma find_file_refines_witness :
  Discovery.find_file fs_foo quote
    [ (false, lam "bar.rc"); (false, lam ".foo.rc") ] true
  = Return (Some ".foo.rc") /\
  length [".foo.rc"] <= 1.
Proof.
  pose proof (find_file_refines fs_foo quote
                [ (false, lam "bar.rc"); (false, lam ".foo.rc") ] true)
    as [H1 H2].
  split; [rewrite H1; reflexivity |].
  exact (proj1 (H2 [".foo.rc"] eq_refl)).
Defined.

(** [cfg['b.bar'] = 2] on the script dialect: the error of [save], the
    state of the assignment, and [cfg['b.bar']] gives 2. *)
Lemma setitem_read_only_witness :
  Config.__setitem__ rt_py 0 "b.bar" (VInt 2) w_view
  = (Raise NotImplementedError, w_assigned) /\
  (Config.__getitem__ rt_py 0 "b.bar" w_assigned).1
  = Return (Config.Leaf (VInt 2)).
Proof.
  assert (NoDup (mdict.walk (dicts w_loaded) 2 (mdict.tokenize "b.bar")))
    as Hnd by (by apply (bool_decide_unpack _)).
  destruct (setitem_read_only rt_py 0 "b.bar" (VInt 2) w_view
              (mk_config [] 0 None None) (mk_cfg PyCfg "app.rc" None)
              2 w_loaded h_assigned
              eq_refl eq_refl eq_refl eq_refl eq_refl Hnd)
    as (_ & H2 & _ & H4 & _).
  split; [exact H2 | exact H4].
Defined.


(** [cfg['e']] is a view of the empty mapping [e]: it reads the root. *)
Lemma descended_view_guard_witness :
  Config.__getitem__ rt_py 0 "e" w_view = (Return (Config.View 1), w_e) /\
  Spec.reads rt_py 1 w_e 2 [("x", VInt 1); ("b", VDict 0); ("e", VDict 1)].
Proof.
  split; [reflexivity |].
  destruct (descended_view_guard rt_py 0 "e" w_view 1 w_e eq_refl)
    as (o & p & Ho & Hp & _ & _ & _ & He).
  vm_compute in Ho. injection Ho as <-.
  cbn in Hp. injection Hp as <-.
  exact (He eq_refl (mk_cfg PyCfg "app.rc" (Some 2)) 2
            [("x", VInt 1); ("b", VDict 0); ("e", VDict 1)]
            eq_refl eq_refl eq_refl).
Defined.

(** The empty view iterates the keys of the root, and an item of the
    root is read through it: [cfg['e']['x']] is 1. *)
Example empty_view_shows_root :
  (Config.__iter__ rt_py 1 w_e).1 = Return ["x"; "b"; "e"] /\
  (Config.__getitem__ rt_py 1 "x" w_e).1 = Return (Config.Leaf (VInt 1)) /\
  (Config.__contains__ rt_py 1 "x" w_e).1 = Return true.
Proof. repeat split. Qed.

(** The view of [b], whose mapping has an item, iterates its own keys. *)
Example nonempty_view_shows_itself :
  (Config.__getitem__ rt_py 0 "b" w_view).1 = Return (Config.View 1) /\
  (Config.__iter__ rt_py 1 (Config.__getitem__ rt_py 0 "b" w_view).2).1
  = Return ["foo"].
Proof. repeat split. Qed.

(** The key [a.b] is read by its escaped path, the path [a.b] goes
    through the section [a]. *)
Example escaped_key_is_distinct :
  (Config.__getitem__ rt_yaml 0 "a\.b" w_yaml).1
  = Return (Config.Leaf (VInt 1)) /\
  (Config.__getitem__ rt_yaml 0 "a.b" w_yaml).1
  = Return (Config.Leaf (VInt 2)) /\
  mdict.untokenize ["a.b"] = "a\.b" /\
  mdict.untokenize ["a"; "b"] = "a.b".
Proof. repeat split. Qed.


(** On a mapping that holds itself, the walk of [a.a] goes twice
    through the same mapping: the assignment replaces the key the walk
    needs, and the read of the same path fails. *)
Example cyclic_walk_repeats :
  mdict.walk h_cyclic 0 ["a"; "a"] = [0; 0] /\
  mdict.aset h_cyclic 0 ["a"; "a"] (VInt 5) = (Return tt, [[("a", VInt 5)]]) /\
  mdict.aget [[("a", VInt 5)]] (VDict 0) ["a"; "a"] = Raise TypeError.
Proof. repeat split. Qed.

End ViewRuns.

(** * More on discovery *)
Section DiscoveryMore.

Import Discovery.

Variable path_exists : string -> bool.
Variable repr : string -> string.

Local Abbreviation loop := (find_files_loop path_exists repr).
Local Abbreviation existing :=
  (filter (fun p => path_exists p = true)).
Local Abbreviation missing :=
  (filter (fun p => path_exists p = false)).

(** The filenames collected are existing yielded paths, in rule order,
    with nothing left out before the place the loop stops. *)
Lemma loop_collects_prefix rs : forall fs ps fs' ps',
  loop rs fs ps = Return (fs', ps') ->
  exists k, fs ++ existing (yielded_paths rs) = fs' ++ k.
Proof.
  induction rs as [| [[e c] f] rs IH]; intros fs ps fs' ps' H.
  - cbn in H. injection H as <- _. by exists [].
  - cbn [find_files_loop] in H. cbv zeta in H.
    rewrite yielded_paths_cons. unfold yields, get_filename. cbn [snd].
    destruct (f tt) as [[s |] | x]; try discriminate; [| by eapply IH].
    destruct (String.eqb s ""); [by eapply IH |].
    destruct (path_exists s) eqn:Hs; cbn [negb] in H.
    + rewrite filter_cons_True by exact Hs.
      destruct c; cbn [negb] in H.
      * apply IH in H as [k Hk]. exists k.
        by rewrite <- Hk, <- app_assoc.
      * injection H as <- _. eexists. by rewrite <- app_assoc.
    + rewrite filter_cons_False by (by rewrite Hs).
      destruct e; [discriminate | by eapply IH].
Qed.

(** X1. A list that [find_files] returns is a prefix of the yielded
    paths that exist, in rule order: every file returned exists. *)
Theorem find_files_prefix_of_existing rs raise_on_all_missing l :
  find_files path_exists repr rs raise_on_all_missing = Return l ->
  l `prefix_of` existing (yielded_paths rs) /\
  Forall (fun f => path_exists f = true) l.
Proof.
  intros H. unfold find_files in H.
  destruct (loop rs [] []) as [[fs ps] | x] eqn:E; [| discriminate].
  assert (l = fs) as ->.
  { destruct fs; cbn in H; [destruct raise_on_all_missing |]; congruence. }
  apply loop_collects_prefix in E as [k Hk]. cbn [app] in Hk.
  assert (fs `prefix_of` existing (yielded_paths rs)) as Hp
    by (by exists k).
  split; [exact Hp |].
  apply Forall_forall. intros f Hf.
  assert (f ∈ existing (yielded_paths rs)) as Hin.
  { rewrite Hk. apply elem_of_app. by left. }
  by apply list_elem_of_filter in Hin as [Hin _].
Qed.

(** When every rule cascades the loop stops nowhere. *)
Lemma loop_all_cascade rs : forall fs ps fs' ps',
  Forall (fun r => cascaded r = true) rs ->
  loop rs fs ps = Return (fs', ps') ->
  fs' = fs ++ existing (yielded_paths rs).
Proof.
  induction rs as [| [[e c] f] rs IH]; intros fs ps fs' ps' Hc H.
  - cbn in *. injection H as <- _. by rewrite app_nil_r.
  - apply Forall_cons in Hc as [Hc1 Hc]. cbn in Hc1. subst c.
    cbn [find_files_loop] in H. cbv zeta in H.
    rewrite yielded_paths_cons. unfold yields, get_filename. cbn [snd].
    destruct (f tt) as [[s |] | x]; try discriminate; [| by eapply IH].
    destruct (String.eqb s ""); [by eapply IH |].
    destruct (path_exists s) eqn:Hs; cbn [negb] in H.
    + rewrite filter_cons_True by exact Hs.
      apply IH in H; [| exact Hc]. by rewrite H, <- app_assoc.
    + rewrite filter_cons_False by (by rewrite Hs).
      destruct e; [discriminate | by eapply IH].
Qed.

(** X2. When every rule cascades, a list that [find_files] returns holds
    every yielded path that exists, in rule order, a path as many times
    as rules yield it. *)
Theorem find_files_all_cascade rs raise_on_all_missing l :
  Forall (fun r => cascaded r = true) rs ->
  find_files path_exists repr rs raise_on_all_missing = Return l ->
  l = existing (yielded_paths rs).
Proof.
  intros Hc H. unfold find_files in H.
  destruct (loop rs [] []) as [[fs ps] | x] eqn:E; [| discriminate].
  apply (loop_all_cascade _ _ _ _ _ Hc) in E. cbn [app] in E.
  destruct fs; cbn in H; [destruct raise_on_all_missing |]; congruence.
Qed.

(** The state the loop reaches through rules that pass. *)
Lemma loop_passes_state pre rest : forall fs ps,
  Forall (fun r => passes path_exists r = true) pre ->
  loop (pre ++ rest) fs ps
  = loop rest (fs ++ existing (yielded_paths pre))
              (ps ++ missing (yielded_paths pre)).
Proof.
  induction pre as [| [[e c] f] pre IH]; intros fs ps H.
  - cbn. by rewrite !app_nil_r.
  - apply Forall_cons in H as [H1 H].
    unfold passes, yields, get_filename, enforce_file_existence, cascaded
      in H1. cbn [fst snd] in H1.
    rewrite yielded_paths_cons. unfold yields, get_filename. cbn [snd].
    cbn [app find_files_loop].
    destruct (f tt) as [[s |] | x]; try discriminate; [| by apply IH].
    destruct (String.eqb s ""); [by apply IH |].
    destruct (path_exists s) eqn:Hs; cbn [negb].
    + subst c. cbn [negb].
      rewrite filter_cons_True by exact Hs.
      rewrite filter_cons_False by (by rewrite Hs).
      rewrite IH by exact H. by rewrite <- app_assoc.
    + destruct e; [discriminate |].
      rewrite filter_cons_False by (by rewrite Hs).
      rewrite filter_cons_True by exact Hs.
      rewrite IH by exact H. by rewrite <- app_assoc.
Qed.

(** X3. The search stops at the first match that does not cascade: when
    the rules before it pass, the call returns the existing paths they
    yield followed by the match, whatever the rules after it are and
    whatever [raise_on_all_missing] is. *)
Theorem find_files_stops_at_match pre e f post s raise_on_all_missing :
  Forall (fun r => passes path_exists r = true) pre ->
  f tt = Return (Some s) ->
  s <> "" ->
  path_exists s = true ->
  find_files path_exists repr (pre ++ (e, false, f) :: post)
    raise_on_all_missing
  = Return (existing (yielded_paths pre) ++ [s]).
Proof.
  intros Hpre Hf Hs He. unfold find_files.
  rewrite loop_passes_state by exact Hpre.
  cbn [find_files_loop app]. rewrite Hf.
  apply String.eqb_neq in Hs. rewrite Hs, He. cbn [negb].
  by destruct (existing (yielded_paths pre)).
Qed.

(** X4. [raise_on_all_missing] matters only when nothing is found: the
    strict call returns a list exactly when the tolerant call returns it
    and it is not empty, and an error of the tolerant call is the error
    of the strict call. *)
Theorem find_files_strict_tolerant rs :
  (forall l,
     find_files path_exists repr rs true = Return l <->
     find_files path_exists repr rs false = Return l /\ l <> []) /\
  (forall x,
     find_files path_exists repr rs false = Raise x ->
     find_files path_exists repr rs true = Raise x).
Proof.
  unfold find_files.
  destruct (loop rs [] []) as [[[| f fs] ps] | x]; cbn.
  - split; [| discriminate]. intros l. split; [discriminate |].
    intros [H Hne]. injection H as <-. done.
  - split; [| discriminate]. intros l. split.
    + intros H. injection H as <-. done.
    + by intros [H _].
  - split; [| done]. intros l. split; [discriminate | by intros [H _]].
Qed.

(** An error of the loop comes from a supplier or from an enforced rule
    whose path is missing. *)
Lemma loop_raises rs : forall fs ps x,
  loop rs fs ps = Raise x ->
  exists r, r ∈ rs /\
    (get_filename r tt = Raise x \/
     enforce_file_existence r = true /\
     exists p, yields r = Some p /\ path_exists p = false /\
               x = file_does_not_exist repr p).
Proof.
  induction rs as [| [[e c] f] rs IH]; intros fs ps x H; [discriminate |].
  cbn [find_files_loop] in H. cbv zeta in H.
  assert (forall fs ps, loop rs fs ps = Raise x ->
            exists r, r ∈ (e, c, f) :: rs /\
              (get_filename r tt = Raise x \/
               enforce_file_existence r = true /\
               exists p, yields r = Some p /\ path_exists p = false /\
                         x = file_does_not_exist repr p)) as Hrest.
  { intros fs0 ps0 H0. apply IH in H0 as (r & Hr & H0).
    exists r. split; [by right | exact H0]. }
  destruct (f tt) as [[s |] | y] eqn:Hf.
  - destruct (String.eqb s "") eqn:Hs; [by eapply Hrest |].
    destruct (path_exists s) eqn:He; cbn [negb] in H.
    + destruct c; cbn [negb] in H; [by eapply Hrest | discriminate].
    + destruct e; [| by eapply Hrest].
      injection H as <-. exists (true, c, f). split; [by left |].
      right. split; [reflexivity |]. exists s.
      unfold yields, get_filename. cbn [snd]. by rewrite Hf, Hs.
  - by eapply Hrest.
  - injection H as <-. exists (e, c, f). split; [by left |]. by left.
Qed.

(** X5. The errors of [find_files]: an error of a supplier, the error
    that names the missing path of a rule that enforces existence, or,
    for the strict call only, the error that nothing was found. *)
Theorem find_files_errors rs raise_on_all_missing x :
  find_files path_exists repr rs raise_on_all_missing = Raise x ->
  (exists r, r ∈ rs /\
     (get_filename r tt = Raise x \/
      enforce_file_existence r = true /\
      exists p, yields r = Some p /\ path_exists p = false /\
                x = file_does_not_exist repr p)) \/
  (raise_on_all_missing = true /\
   x = no_config_file_found (yielded_paths rs)).
Proof.
  intros H. unfold find_files in H.
  destruct (loop rs [] []) as [[fs ps] | y] eqn:E.
  - right. destruct fs as [| f fs]; [| discriminate].
    destruct raise_on_all_missing; [| discriminate].
    cbn in H. injection H as <-. split; [reflexivity |].
    by apply loop_unchanged in E as [_ ->].
  - left. injection H as <-. by eapply loop_raises.
Qed.

(** X6. When no rule enforces existence and every supplier returns,
    the call that tolerates missing files does not raise. *)
Theorem find_files_tolerant_never_raises rs :
  Forall (fun r => enforce_file_existence r = false /\
                   is_raise (get_filename r tt) = false) rs ->
  is_raise (find_files path_exists repr rs false) = false.
Proof.
  intros H. by destruct (find_files_returns path_exists repr rs H) as [l ->].
Qed.

Lemma first_existing_exists rs f :
  first_existing path_exists rs = Some f -> path_exists f = true.
Proof.
  induction rs as [| r rs IH]; [discriminate |].
  cbn [first_existing]. unfold existing_file.
  destruct (yields r) as [s |]; [| exact IH].
  destruct (path_exists s) eqn:Hs; [| exact IH].
  intros H. by injection H as <-.
Qed.

(** X7. What [find_file] returns is the file of the first rule whose
    yielded path exists, and that file exists; it returns [None] only
    when no rule has such a file and missing files are tolerated. *)
Theorem find_file_first_existing rs raise_on_all_missing o :
  find_file path_exists repr rs raise_on_all_missing = Return o ->
  o = first_existing path_exists (Spec.force_no_cascade rs) /\
  (forall f, o = Some f -> path_exists f = true) /\
  (o = None -> raise_on_all_missing = false).
Proof.
  intros H. unfold find_file in H. rewrite force_no_cascade_spec in H.
  destruct (find_files path_exists repr (Spec.force_no_cascade rs)
              raise_on_all_missing) as [l | x] eqn:E; [| discriminate].
  pose proof (find_files_no_cascade_result _ _ _ _ _
                (force_no_cascade_cascaded rs) E) as Hl.
  assert (o = first_existing path_exists (Spec.force_no_cascade rs)) as Ho.
  { destruct (first_existing _ _) as [f |]; subst l; cbn in H; congruence. }
  split; [exact Ho |]. split.
  - intros f ->. by eapply first_existing_exists.
  - intros ->. rewrite <- Ho in Hl. subst l. unfold find_files in E.
    destruct (find_files_loop _ _ _ _ _) as [[fs ps] | y]; [| discriminate].
    destruct fs; [| discriminate].
    by destruct raise_on_all_missing.
Qed.

End DiscoveryMore.

(** * More on [load] *)
Section LoadMore.

Import Discovery.

Variable path_exists : string -> bool.
Variable repr : string -> string.
Variable environ_get : string -> option string.
Variable expanduser : string -> string.
Variable os_path_basename : string -> string.
Variable argv0 : string.
Variable upper : string -> string.
Context {C D : Type}.
Variable config_factory : string -> result C.

(** X8. [load_files] builds one view per filename, in order; it fails
    with the error of the first filename whose view cannot be built. *)
Theorem load_files_views filenames :
  match load_files config_factory filenames with
  | Return (MultiDictReader views) =>
      Forall2 (fun f c => config_factory f = Return c) filenames views
  | Raise x =>
      exists pre f post,
        filenames = pre ++ f :: post /\
        config_factory f = Raise x /\
        Forall (fun g => is_raise (config_factory g) = false) pre
  end.
Proof.
  unfold load_files.
  induction filenames as [| f fs IH]; cbn [comprehension].
  - constructor.
  - destruct (config_factory f) as [c | x] eqn:Hf.
    + destruct (comprehension config_factory fs) as [cs | x].
      * by constructor.
      * destruct IH as (pre & g & post & -> & Hg & Hpre).
        exists (f :: pre), g, post. split; [reflexivity |].
        split; [exact Hg |]. constructor; [by rewrite Hf | exact Hpre].
    + exists [], f, fs. by repeat split.
Qed.

(** X9. An override file that exists is the only file [load] reads,
    whatever the environment, [local_path] and [default] are. *)
Theorem load_override_exists basename (default : option D) config_file
    local_path c :
  config_file <> "" ->
  path_exists config_file = true ->
  config_factory config_file = Return c ->
  load path_exists repr environ_get expanduser os_path_basename argv0 upper
    config_factory basename default (Some config_file) local_path None
  = Return (Overlay (MultiDictReader [c])).
Proof.
  intros Hne He Hc. unfold load, find_files, default_config_struct.
  cbn [app find_files_loop]. apply String.eqb_neq in Hne.
  rewrite Hne, He. cbn. unfold load_files. cbn [comprehension].
  by rewrite Hc.
Qed.

(** X10. An override file that does not exist makes [load] fail with the
    error that names it, also when a default was given. *)
Theorem load_override_missing basename (default : option D) config_file
    local_path :
  config_file <> "" ->
  path_exists config_file = false ->
  load path_exists repr environ_get expanduser os_path_basename argv0 upper
    config_factory basename default (Some config_file) local_path None
  = Raise (file_does_not_exist repr config_file).
Proof.
  intros Hne He. unfold load, find_files, default_config_struct.
  cbn [app find_files_loop]. apply String.eqb_neq in Hne.
  by rewrite Hne, He.
Qed.

Lemma truthy_false (v : option string) :
  truthy v = false ->
  @Return (option string) v = Return None \/ Return v = Return (Some "").
Proof.
  destruct v as [s |]; [| by left]. cbn. intros H.
  apply negb_false_iff, String.eqb_eq in H. right. by rewrite H.
Qed.

Lemma etc_path_not_empty b : String.eqb ("/etc/" +:+ b +:+ ".rc") "" = false.
Proof. reflexivity. Qed.

(** X11. With no override file, the file named by the environment
    variable, when it exists, is the only file [load] reads. *)
Theorem load_environment_file basename (default : option D) config_file
    local_path f c :
  truthy config_file = false ->
  environ_get (upper (infer_basename os_path_basename argv0 basename)
               +:+ "_CONFIG_FILENAME") = Some f ->
  f <> "" ->
  path_exists f = true ->
  config_factory f = Return c ->
  load path_exists repr environ_get expanduser os_path_basename argv0 upper
    config_factory basename default config_file local_path None
  = Return (Overlay (MultiDictReader [c])).
Proof.
  intros Hcf Henv Hne He Hc. unfold load, find_files, default_config_struct.
  cbn [app]. rewrite loop_unset by (by apply truthy_false).
  cbn [find_files_loop]. rewrite Henv. apply String.eqb_neq in Hne.
  rewrite Hne, He. cbn. unfold load_files. cbn [comprehension].
  by rewrite Hc.
Qed.

(** X12. With [local_path] given, and neither an override file nor a
    file named by the environment, [load] fails with [NameError]: the
    rule it adds calls a lambda over the unbound name [b]. *)
Theorem load_local_path_name_error basename (default : option D)
    config_file local_path :
  truthy config_file = false ->
  truthy (environ_get
            (upper (infer_basename os_path_basename argv0 basename)
             +:+ "_CONFIG_FILENAME")) = false ->
  truthy local_path = true ->
  load path_exists repr environ_get expanduser os_path_basename argv0 upper
    config_factory basename default config_file local_path None
  = Raise (NameError "b").
Proof.
  intros Hcf Henv Hlp. unfold load, find_files, default_config_struct.
  rewrite Hlp. cbn [app].
  rewrite loop_unset by (by apply truthy_false).
  rewrite loop_unset by (by apply truthy_false).
  reflexivity.
Qed.

(** X13. With no override file, no file named by the environment, no
    [local_path] and neither the home file nor the system file on disk,
    [load] returns the default it was given; without a default it fails
    with the error that lists the paths searched, the home path twice. *)
Theorem load_nothing_found basename (default : option D) config_file
    local_path :
  let b := infer_basename os_path_basename argv0 basename in
  let home := expanduser ("~/." +:+ b +:+ ".rc") in
  let etc := "/etc/" +:+ b +:+ ".rc" in
  truthy config_file = false ->
  truthy (environ_get (upper b +:+ "_CONFIG_FILENAME")) = false ->
  truthy local_path = false ->
  home <> "" ->
  path_exists home = false ->
  path_exists etc = false ->
  load path_exists repr environ_get expanduser os_path_basename argv0 upper
    config_factory basename default config_file local_path None
  = match default with
    | Some d => Return (Default (Some d))
    | None => Raise (no_config_file_found [home; home; etc])
    end.
Proof.
  intros b home etc Hcf Henv Hlp Hne Hh He.
  unfold load, find_files, default_config_struct.
  fold b. fold home. fold etc. rewrite Hlp. cbn [app].
  rewrite loop_unset by (by apply truthy_false).
  rewrite loop_unset by (by apply truthy_false).
  cbn [find_files_loop]. apply String.eqb_neq in Hne.
  unfold etc at 1 2. rewrite etc_path_not_empty. fold etc.
  rewrite Hne, Hh, He. cbn. by destruct default.
Qed.

Lemma length_append s t :
  String.length (s +:+ t) = String.length s + String.length t.
Proof.
  induction s as [| c s IH]; [reflexivity |].
  rewrite append_cons. cbn. by rewrite IH.
Qed.

Lemma substring_prefix s t :
  String.substring 0 (String.length s) (s +:+ t) = s.
Proof.
  induction s as [| c s IH].
  - cbn. by destruct t.
  - rewrite append_cons. cbn. by rewrite IH.
Qed.

Lemma substring_suffix s t :
  String.substring (String.length s) (String.length t) (s +:+ t) = t.
Proof.
  induction s as [| c s IH].
  - change ("" +:+ t) with t. cbn [String.length].
    induction t as [| c t IHt]; [reflexivity |]. cbn. by rewrite IHt.
  - rewrite append_cons. cbn. exact IH.
Qed.

(** X14. When no basename is given and the executable is a script
    [name.py], the basename [load] infers is [name]. *)
Theorem infer_basename_script name :
  os_path_basename argv0 = name +:+ ".py" ->
  infer_basename os_path_basename argv0 None = name.
Proof.
  intros H. unfold infer_basename, endswith, drop_last. rewrite H.
  rewrite length_append. cbn [String.length].
  replace (String.length name + 3 - 3) with (String.length name) by lia.
  pose proof (substring_suffix name ".py") as Hs. cbn [String.length] in Hs.
  rewrite Hs, substring_prefix.
  replace (3 <=? String.length name + 3)%nat with true
    by (symmetry; apply Nat.leb_le; lia).
  reflexivity.
Qed.

End LoadMore.

(** * More on the backends *)
Section BackendMore.

Import Backend.

Variable rt : runtime.

(** X15. The mapping of a backend is computed once: after an access
    that returns, the next access returns the same mapping and changes
    nothing, so it calls no parser. *)
Theorem backend_cfg_computed_once o w r w1 :
  _cfg rt o w = (Return r, w1) ->
  _cfg rt o w1 = (Return r, w1).
Proof.
  intros H. unfold _cfg, cached_property, bind, deref in *.
  destruct (cfgs w !! o) as [ob |] eqn:Ho; [| discriminate].
  destruct (cfg_cache ob) as [m |] eqn:Hm.
  - injection H as <- <-. by rewrite Ho, Hm.
  - pose proof (compute_cfg_frame rt ob w) as [Hc _].
    destruct (compute_cfg rt ob w) as [[r' | x] w2]; [| discriminate].
    cbn [snd] in Hc. unfold modify, ret in H. injection H as <- <-.
    cbn [cfgs set_cfgs]. rewrite Hc.
    rewrite list_lookup_insert_eq by (by eapply lookup_lt_Some).
    reflexivity.
Qed.

(** The keys of a mapping built from parsed items. *)
Lemma alloc_items_get items : forall d h k,
  k ∉ items.*1 ->
  dict_get (alloc_items items d h).1 k = dict_get d k.
Proof.
  induction items as [| [k0 t] items IH]; intros d h k Hk; [reflexivity |].
  cbn [alloc_items]. cbn in Hk. apply not_elem_of_cons in Hk as [Hne Hk].
  destruct (alloc t h) as [v h1].
  rewrite IH by exact Hk. by apply dict_get_set_ne.
Qed.

Lemma dict_get_set_is_Some d k0 v k :
  is_Some (dict_get (dict_set d k0 v) k) <->
  k = k0 \/ is_Some (dict_get d k).
Proof.
  destruct (decide (k = k0)) as [-> | Hne].
  - rewrite dict_get_set_eq. split; [by left | by eauto].
  - rewrite dict_get_set_ne by done. split; [by right |].
    by intros [? | ?].
Qed.

Lemma alloc_items_is_Some items : forall d h k,
  is_Some (dict_get (alloc_items items d h).1 k) <->
  k ∈ items.*1 \/ is_Some (dict_get d k).
Proof.
  induction items as [| [k0 t] items IH]; intros d h k.
  - cbn. split; [by right |]. intros [H | H]; [| done].
    by apply elem_of_nil in H.
  - cbn [alloc_items]. destruct (alloc t h) as [v h1].
    rewrite IH, dict_get_set_is_Some. cbn. rewrite elem_of_cons.
    tauto.
Qed.

(** X16. The mapping a script gives holds every name the script binds
    except [__builtins__], and no other key. *)
Theorem pycfg_hides_builtins ob o w ns r w1 :
  cfgs w !! o = Some ob ->
  cfg_class_of ob = PyCfg ->
  cfg_cache ob = None ->
  py_exec rt (_filename ob) = Return ns ->
  _cfg rt o w = (Return r, w1) ->
  exists d,
    dicts w1 !! r = Some d /\
    dict_get d "__builtins__" = None /\
    forall k, is_Some (dict_get d k) <->
              k ∈ ns.*1 /\ k <> "__builtins__".
Proof.
  intros Ho Hcls Hm Hns H.
  unfold _cfg, cached_property, bind, deref in H. rewrite Ho, Hm in H.
  unfold compute_cfg in H. rewrite Hcls in H.
  unfold bind, modify, lift in H. rewrite Hns in H.
  unfold store_dict, alloc_dict in H. cbn [dicts log_parse] in H.
  set (items := filter (fun kv : string * tree => kv.1 <> "__builtins__") ns)
    in *.
  pose proof (fun k => alloc_items_is_Some items [] (dicts w) k) as Hkeys.
  destruct (alloc_items items [] (dicts w)) as [d h'] eqn:Ha.
  cbn [fst] in Hkeys. unfold ret in H. cbn in H. injection H as <- <-.
  exists d. cbn [dicts set_cfgs set_dicts].
  assert (forall k, is_Some (dict_get d k) <->
                    k ∈ ns.*1 /\ k <> "__builtins__") as Hd.
  { intros k. rewrite Hkeys. cbn [dict_get]. split.
    - intros [Hk | [? Hk]]; [| discriminate].
      apply list_elem_of_fmap in Hk as ([k' t] & -> & Hk).
      apply list_elem_of_filter in Hk as [Hne Hk].
      split; [| exact Hne]. apply list_elem_of_fmap. by exists (k', t).
    - intros [Hk Hne]. left.
      apply list_elem_of_fmap in Hk as ([k' t] & -> & Hk).
      apply list_elem_of_fmap. exists (k', t). split; [reflexivity |].
      by apply list_elem_of_filter. }
  split; [| split; [| exact Hd]].
  - rewrite lookup_app_r by lia. by rewrite Nat.sub_diag.
  - destruct (dict_get d "__builtins__") eqn:E; [| reflexivity].
    assert (is_Some (dict_get d "__builtins__")) as Hs by (by rewrite E).
    apply Hd in Hs as [_ Hs]. done.
Qed.

(** X17. A dialect whose library is missing is left out of the
    detection: the loop gives what it gives without that class, in the
    same state. *)
Theorem choose_loop_skips_unavailable pre cm post filename :
  constructible rt cm = false ->
  forall w,
    choose_loop rt (pre ++ cm :: post) filename w
    = choose_loop rt (pre ++ post) filename w.
Proof.
  intros Hcm. induction pre as [| c pre IH]; intros w.
  - cbn [app choose_loop]. unfold try_except. rewrite try_body.
    unfold trial, bind.
    destruct (construct_not_constructible rt cm filename w Hcm) as [x ->].
    reflexivity.
  - cbn [app choose_loop]. unfold try_except.
    destruct ((o <- construct rt c filename ;;
               _cfg rt o ;;; construct rt c filename) w) as [[o | x] w'];
      [reflexivity | apply IH].
Qed.

(** A file the script dialect reads passes its trial. *)
Lemma trial_pycfg filename ns w :
  py_exec rt filename = Return ns ->
  exists r w1, trial rt PyCfg filename w = (Return r, w1).
Proof.
  intros Hns. unfold trial, bind, construct, __init__.
  unfold _cfg, cached_property, bind, deref. cbn [cfgs set_cfgs].
  rewrite lookup_app_r by lia. rewrite Nat.sub_diag. cbn.
  unfold compute_cfg. cbn [cfg_class_of _filename].
  unfold bind, modify, lift. rewrite Hns.
  unfold store_dict. destruct (alloc_dict _ _) as [r h]. cbn. by eauto.
Qed.

(** X18. A file the script dialect reads is detected as a script, also
    when another dialect reads it too: [PyCfg] comes first. *)
Theorem choose_cfg_manager_prefers_pycfg filename ns w :
  py_exec rt filename = Return ns ->
  exists o w1,
    choose_cfg_manager rt filename w = (Return o, w1) /\
    cfgs w1 !! o = Some (mk_cfg PyCfg filename None).
Proof.
  intros Hns.
  destruct (trial_pycfg filename ns w Hns) as (r & w0 & Ht).
  pose proof (choose_loop_first_successful rt _GENERIC_CFG filename w) as H.
  unfold _GENERIC_CFG in H. cbn [Spec.first_successful] in H.
  rewrite Ht in H.
  exists (length (cfgs w0)),
    (set_cfgs (cfgs w0 ++ [mk_cfg PyCfg filename None]) w0).
  split; [exact H |]. cbn. rewrite lookup_app_r by lia.
  by rewrite Nat.sub_diag.
Qed.

End BackendMore.

(** * More on the views *)
Section ViewMore.

Variable rt : runtime.

(** Loading a mapping writes no file. *)
Lemma backend_cfg_writes o w : writes (Backend._cfg rt o w).2 = writes w.
Proof.
  unfold Backend._cfg, cached_property, bind, Backend.deref.
  destruct (cfgs w !! o) as [ob |]; [| reflexivity].
  destruct (cfg_cache ob); [reflexivity |].
  assert (writes (Backend.compute_cfg rt ob w).2 = writes w) as Hc.
  { unfold Backend.compute_cfg, Backend.custom_load, bind, modify, lift,
      Backend.store_dict.
    destruct (cfg_class_of ob); try reflexivity.
    - destruct (py_exec rt (_filename ob)); [| reflexivity].
      by destruct (alloc_dict _ _).
    - destruct (configobj rt) as [load |]; [| reflexivity].
      destruct (load (_filename ob)); [| reflexivity].
      by destruct (alloc_dict _ _).
    - destruct (yaml rt) as [load |]; [| reflexivity].
      destruct (load (_filename ob)); [| reflexivity].
      by destruct (alloc_dict _ _). }
  by destruct (Backend.compute_cfg rt ob w) as [[r | x] w1].
Qed.

Lemma config_cfg_writes self w : writes (Config._cfg rt self w).2 = writes w.
Proof.
  unfold Config._cfg, cached_property, bind, Config.deref, get.
  destruct (configs w !! self) as [c |]; [| reflexivity].
  destruct (config_cache c); [reflexivity |].
  pose proof (backend_cfg_writes (_cfg_manager c) w) as Hb.
  destruct (_provided_cfg c) as [p |].
  - destruct (dicts w !! p) as [[| kv d] |]; try reflexivity.
    by destruct (Backend._cfg rt (_cfg_manager c) w) as [[r | x] w1].
  - by destruct (Backend._cfg rt (_cfg_manager c) w) as [[r | x] w1].
Qed.

Lemma getitem_writes self label w :
  writes (Config.__getitem__ rt self label w).2 = writes w.
Proof.
  unfold Config.__getitem__, Config._mcfg, bind.
  pose proof (config_cfg_writes self w) as Hc.
  destruct (Config._cfg rt self w) as [[dct | x] w0]; [| exact Hc].
  unfold mdict.__getitem__.
  destruct (mdict.aget _ _ _) as [[| n | s | r] | x]; try exact Hc.
  unfold Config.deref. destruct (configs w0 !! self); exact Hc.
Qed.

(** X19. Reading never writes a file: item access, iteration and the
    containment test leave the writes as they were, also when the read
    loads the mapping or raises. *)
Theorem reads_write_nothing self label w :
  writes (Config.__getitem__ rt self label w).2 = writes w /\
  writes (Config.__iter__ rt self w).2 = writes w /\
  writes (Config.__contains__ rt self label w).2 = writes w.
Proof.
  split; [apply getitem_writes |].
  assert (writes (Config.__iter__ rt self w).2 = writes w) as Hi.
  { unfold Config.__iter__, bind, get.
    pose proof (config_cfg_writes self w) as Hc.
    destruct (Config._cfg rt self w) as [[dct | x] w0]; [| exact Hc].
    by destruct (dicts w0 !! dct). }
  split; [exact Hi |].
  unfold Config.__contains__, bind.
  by destruct (Config.__iter__ rt self w) as [[keys | x] w0].
Qed.

(** X20. Reading a plain value twice gives it twice: the second access
    returns the same value and changes nothing. *)
Theorem getitem_leaf_idempotent self label w v w1 :
  Config.__getitem__ rt self label w = (Return (Config.Leaf v), w1) ->
  Config.__getitem__ rt self label w1 = (Return (Config.Leaf v), w1).
Proof.
  intros H.
  destruct (configs w !! self) as [c |] eqn:Hc.
  - destruct (Config._cfg rt self w) as [[dct | x] w0] eqn:Hcfg.
    + pose proof (config_cfg_inv _ _ _ _ _ _ Hc Hcfg) as [Hv _].
      rewrite (getitem_after_cfg _ _ _ _ _ _ _ Hc Hcfg) in H.
      assert (w1 = w0) as ->.
      { unfold Spec.getitem_result in H.
        destruct (mdict.aget _ _ _) as [[| n | s | r] | x]; congruence. }
      set (c' := mk_config (_prefix c) (_cfg_manager c) (_provided_cfg c)
                           (Some dct)).
      assert (configs w0 !! self = Some c') as Hc'.
      { rewrite Hv. apply list_lookup_insert_eq. by eapply lookup_lt_Some. }
      rewrite (getitem_after_cfg rt self label w0 c' dct w0 Hc'
                 (config_cfg_memo rt self w0 c' dct Hc' eq_refl)).
      unfold Spec.getitem_result in *.
      destruct (mdict.aget _ _ _) as [[| n | s | r] | x]; congruence.
    + unfold Config.__getitem__, Config._mcfg, bind in H.
      rewrite Hcfg in H. discriminate.
  - unfold Config.__getitem__, Config._mcfg, Config._cfg, cached_property,
      bind, Config.deref in H.
    rewrite Hc in H. discriminate.
Qed.

(** A view over a backend that has its mapping reads without touching
    anything but its own memo. *)
Lemma config_cfg_loaded self w c bo root dct w0 :
  configs w !! self = Some c ->
  cfgs w !! _cfg_manager c = Some bo ->
  cfg_cache bo = Some root ->
  Config._cfg rt self w = (Return dct, w0) ->
  w0 = set_configs
         (<[self := mk_config (_prefix c) (_cfg_manager c) (_provided_cfg c)
                              (Some dct)]> (configs w)) w.
Proof.
  intros Hc Hbo Hroot H.
  assert (Backend._cfg rt (_cfg_manager c) w = (Return root, w)) as Hb.
  { unfold Backend._cfg, cached_property, bind, Backend.deref.
    by rewrite Hbo, Hroot. }
  unfold Config._cfg, cached_property, bind, Config.deref, get in H.
  rewrite Hc in H. destruct c as [pre m pr [memo |]]; cbn in *.
  - injection H as <- <-. destruct w as [h cs vs ps ws]. cbn in *.
    unfold set_configs. cbn. f_equal. symmetry. by apply list_insert_id.
  - destruct pr as [p |].
    + destruct (dicts w !! p) as [[| kv d] |]; [| | discriminate].
      * rewrite Hb in H. cbn in H. by injection H as <- <-.
      * cbn in H. by injection H as <- <-.
    + rewrite Hb in H. cbn in H. by injection H as <- <-.
Qed.

(** X21. On a view over a dialect that can write, whose backend has its
    mapping, an assignment that goes through in memory is followed by
    one save: the file of the backend is written once, with the root
    mapping of the backend, also when the view is a nested one. *)
Theorem setitem_saves_root self label v w c bo root dct w0 h1 :
  configs w !! self = Some c ->
  cfgs w !! _cfg_manager c = Some bo ->
  Spec.read_only (cfg_class_of bo) = false ->
  cfg_cache bo = Some root ->
  Config._cfg rt self w = (Return dct, w0) ->
  mdict.aset (dicts w0) dct (mdict.tokenize label) v = (Return tt, h1) ->
  Config.__setitem__ rt self label v w
  = (Return tt, log_write (_filename bo, root) (set_dicts h1 w0)) /\
  writes (log_write (_filename bo, root) (set_dicts h1 w0))
  = writes w ++ [(_filename bo, root)].
Proof.
  intros Hc Hbo Hrw Hroot Hcfg Hset.
  pose proof (config_cfg_loaded _ _ _ _ _ _ _ Hc Hbo Hroot Hcfg) as Hw0.
  assert (self < length (configs w)) as Hlt by (by eapply lookup_lt_Some).
  assert (configs w0 !! self
          = Some (mk_config (_prefix c) (_cfg_manager c) (_provided_cfg c)
                            (Some dct))) as Hself.
  { rewrite Hw0. cbn. by apply list_lookup_insert_eq. }
  assert (cfgs w0 = cfgs w) as Hcfgs by (by rewrite Hw0).
  assert (writes w0 = writes w) as Hwr by (by rewrite Hw0).
  split.
  - unfold Config.__setitem__, Config.assign, Config._mcfg, bind.
    rewrite Hcfg. unfold mdict.__setitem__. rewrite Hset.
    unfold Config.deref. cbn [configs set_dicts]. rewrite Hself.
    cbn [_cfg_manager].
    unfold Backend.save, bind, Backend.deref. cbn [cfgs set_dicts].
    rewrite Hcfgs, Hbo.
    assert (Backend._cfg rt (_cfg_manager c) (set_dicts h1 w0)
            = (Return root, set_dicts h1 w0)) as Hb.
    { unfold Backend._cfg, cached_property, bind, Backend.deref.
      cbn [cfgs set_dicts]. by rewrite Hcfgs, Hbo, Hroot. }
    destruct (cfg_class_of bo); try discriminate; by rewrite Hb.
  - cbn. by rewrite Hwr.
Qed.




(** X23. On a view over a read-only dialect, a deletion that goes
    through in memory raises the error of the [save] of [Cfg] and
    leaves the state of the deletion. *)
Theorem delitem_read_only self label w c bo dct w0 h1 :
  configs w !! self = Some c ->
  cfgs w !! _cfg_manager c = Some bo ->
  Spec.read_only (cfg_class_of bo) = true ->
  Config._cfg rt self w = (Return dct, w0) ->
  mdict.adel (dicts w0) dct (mdict.tokenize label) = (Return tt, h1) ->
  Config.__delitem__ rt self label w
  = (Raise NotImplementedError, set_dicts h1 w0).
Proof.
  intros Hc Hbo Hro Hcfg Hdel.
  pose proof (config_cfg_inv _ _ _ _ _ _ Hc Hcfg) as [Hv Hcl].
  destruct (Hcl _ _ Hbo) as (bo' & Hbo' & Hclass).
  assert (self < length (configs w)) as Hlt by (by eapply lookup_lt_Some).
  unfold Config.__delitem__, Config._mcfg, bind. rewrite Hcfg.
  unfold mdict.__delitem__. rewrite Hdel.
  unfold Config.deref. cbn [configs set_dicts]. rewrite Hv.
  rewrite list_lookup_insert_eq by exact Hlt. cbn [_cfg_manager].
  unfold Backend.save, bind, Backend.deref. cbn [cfgs set_dicts].
  rewrite Hbo', Hclass. by destruct (cfg_class_of bo).
Qed.

(** X24. Views share the mapping of the backend: an assignment made
    through the view of a nested mapping changes that mapping in place,
    and the parent view reads the value at the dotted path. *)
Theorem subview_assignment_shared cfg a k v w dct w0 d r d2 :
  Spec.plain a = true ->
  Spec.plain k = true ->
  Config._cfg rt cfg w = (Return dct, w0) ->
  dicts w0 !! dct = Some d ->
  dict_get d a = Some (VDict r) ->
  dicts w0 !! r = Some d2 ->
  d2 <> [] ->
  r <> dct ->
  exists sv w1 w2,
    Config.__getitem__ rt cfg a w = (Return (Config.View sv), w1) /\
    Config.assign rt sv k v w1 = (Return tt, w2) /\
    dicts w2 = <[r := dict_set d2 k v]> (dicts w0) /\
    (Config.__getitem__ rt cfg (a +:+ "." +:+ k) w2).1
    = Return (Spec.item_of v (length (configs w2))).
Proof.
  intros Ha Hk Hcfg Hd Hda Hr Hne Hrd.
  destruct (config_cfg_deref _ _ _ _ _ Hcfg) as [c Hc].
  pose proof (config_cfg_inv _ _ _ _ _ _ Hc Hcfg) as [Hv _].
  assert (cfg < length (configs w)) as Hlt by (by eapply lookup_lt_Some).
  set (c' := mk_config (_prefix c) (_cfg_manager c) (_provided_cfg c)
                       (Some dct)) in *.
  assert (configs w0 !! cfg = Some c') as Hc0.
  { rewrite Hv. by apply list_lookup_insert_eq. }
  assert (cfg < length (configs w0)) as Hlt0 by (by eapply lookup_lt_Some).
  (* the view of [a] *)
  pose proof (getitem_after_cfg rt cfg a _ _ _ _ Hc Hcfg) as H1.
  unfold Spec.getitem_result in H1.
  rewrite (tokenize_plain a Ha) in H1. cbn [mdict.aget] in H1.
  rewrite Hd, Hda in H1.
  set (oa := mk_config (_prefix c ++ [a]) (_cfg_manager c) (Some r) None)
    in *.
  set (sv := length (configs w0)) in *.
  set (w1 := set_configs (configs w0 ++ [oa]) w0) in *.
  assert (configs w1 !! sv = Some oa) as Hoa by apply lookup_new_view.
  (* the assignment through it *)
  pose proof (config_cfg_provided rt sv w1 oa r d2 Hoa eq_refl eq_refl Hr Hne)
    as Hcfg1.
  set (w1' := set_configs
                (<[sv := mk_config (_prefix oa) (_cfg_manager oa) (Some r)
                                   (Some r)]> (configs w1)) w1) in *.
  set (h2 := <[r := dict_set d2 k v]> (dicts w0)).
  assert (Config.assign rt sv k v w1 = (Return tt, set_dicts h2 w1')) as H2.
  { unfold Config.assign, Config._mcfg, bind. rewrite Hcfg1.
    unfold mdict.__setitem__. rewrite (tokenize_plain k Hk).
    cbn [mdict.aset]. cbn [dicts set_configs w1' w1]. by rewrite Hr. }
  (* the read through the parent *)
  assert (configs (set_dicts h2 w1') !! cfg = Some c') as Hc2.
  { cbn [configs set_dicts set_configs w1' w1].
    rewrite list_lookup_insert_ne by (unfold sv; lia).
    by rewrite lookup_app_l. }
  pose proof (getitem_after_cfg rt cfg (a +:+ "." +:+ k) _ c' dct _ Hc2
                (config_cfg_memo rt cfg _ c' dct Hc2 eq_refl)) as H3.
  assert (mdict.aget h2 (VDict dct) (mdict.tokenize (a +:+ "." +:+ k))
          = Return v) as Hget.
  { rewrite (tokenize_dotted a k Ha Hk). cbn [mdict.aget]. unfold h2.
    rewrite list_lookup_insert_ne by exact Hrd. rewrite Hd, Hda.
    rewrite list_lookup_insert_eq by (by eapply lookup_lt_Some).
    by rewrite dict_get_set_eq. }
  exists sv, w1, (set_dicts h2 w1').
  split; [exact H1 |]. split; [exact H2 |]. split; [reflexivity |].
  rewrite H3. unfold Spec.getitem_result. cbn [dicts set_dicts].
  rewrite Hget. by destruct v.
Qed.

End ViewMore.

(** * More runs *)
Section MoreRuns.

Import Discovery Examples MoreExamples.

(** The cascading example of the docstring: both files, in rule order. *)
Lemma find_files_prefix_of_existing_witness :
  find_files fs_foo quote rules_cascade true
  = Return ["foo.rc"; ".foo.rc"] /\
  Forall (fun f => fs_foo f = true) ["foo.rc"; ".foo.rc"].
Proof.
  split; [reflexivity |].
  exact (proj2 (find_files_prefix_of_existing fs_foo quote rules_cascade
                  true ["foo.rc"; ".foo.rc"] eq_refl)).
Defined.

Lemma find_files_all_cascade_witness :
  ["foo.rc"; ".foo.rc"]
  = filter (fun p => fs_foo p = true) (yielded_paths rules_all_cascade).
Proof.
  apply (find_files_all_cascade fs_foo quote rules_all_cascade true).
  - repeat constructor.
  - reflexivity.
Defined.

Lemma find_files_stops_at_match_witness :
  find_files fs_foo quote rules_after_match true
  = Return ["foo.rc"; ".foo.rc"].
Proof.
  apply (find_files_stops_at_match fs_foo quote
           [ (false, true, lam "foo.rc") ] false (lam ".foo.rc")
           [ (true, false, lam "bar.rc") ] ".foo.rc" true).
  - repeat constructor.
  - reflexivity.
  - discriminate.
  - reflexivity.
Defined.

Lemma find_files_errors_witness :
  (exists r, r ∈ rules_enforced_reached /\
     (get_filename r tt = Raise (ValueError "File 'bar.rc' does not exists.")
      \/ enforce_file_existence r = true /\
         exists p, yields r = Some p /\ fs_foo p = false /\
                   ValueError "File 'bar.rc' does not exists."
                   = file_does_not_exist quote p)) \/
  (true = true /\
   ValueError "File 'bar.rc' does not exists."
   = no_config_file_found (yielded_paths rules_enforced_reached)).
Proof.
  exact (find_files_errors fs_foo quote rules_enforced_reached true
           (ValueError "File 'bar.rc' does not exists.") eq_refl).
Defined.

Lemma find_files_tolerant_never_raises_witness :
  is_raise (find_files fs_foo quote rules_none_exists false) = false.
Proof.
  apply (find_files_tolerant_never_raises fs_foo quote rules_none_exists).
  repeat constructor.
Defined.

Lemma find_file_first_existing_witness :
  Some ".foo.rc"
  = first_existing fs_foo
      (Spec.force_no_cascade
         [ (false, lam "bar.rc"); (false, lam ".foo.rc") ]) /\
  fs_foo ".foo.rc" = true.
Proof.
  destruct (find_file_first_existing fs_foo quote
              [ (false, lam "bar.rc"); (false, lam ".foo.rc") ] true
              (Some ".foo.rc") eq_refl) as (H1 & H2 & _).
  split; [exact H1 | exact (H2 _ eq_refl)].
Defined.

Lemma load_override_exists_witness :
  load_u (Some "foo") (Some "fallback") (Some "/home/u/.foo.rc")
    (Some "here")
  = Return (Overlay (MultiDictReader ["/home/u/.foo.rc"])).
Proof.
  apply (load_override_exists fs_home quote no_environ expanduser_u
           basename_id "foo.py" upper (fun f => Return f)).
  - discriminate.
  - reflexivity.
  - reflexivity.
Defined.

Lemma load_override_missing_witness :
  load_u (Some "foo") (Some "fallback") (Some "nope.rc") None
  = Raise (ValueError "File 'nope.rc' does not exists.").
Proof.
  apply (load_override_missing fs_home quote no_environ expanduser_u
           basename_id "foo.py" upper (fun f => Return f)).
  - discriminate.
  - reflexivity.
Defined.

Lemma load_environment_file_witness :
  load fs_home quote environ_foo expanduser_u basename_id "foo.py" upper
    (fun f => Return f) None (@None string) None None None
  = Return (Overlay (MultiDictReader ["/home/u/.foo.rc"])).
Proof.
  apply (load_environment_file fs_home quote environ_foo expanduser_u
           basename_id "foo.py" upper (fun f => Return f) None None None
           None "/home/u/.foo.rc").
  - reflexivity.
  - reflexivity.
  - discriminate.
  - reflexivity.
  - reflexivity.
Defined.

Lemma load_local_path_name_error_witness :
  load_u (Some "foo") (Some "fallback") None (Some "here")
  = Raise (NameError "b").
Proof.
  apply (load_local_path_name_error fs_home quote no_environ expanduser_u
           basename_id "foo.py" upper (fun f => Return f)); reflexivity.
Defined.

Lemma load_nothing_found_witness :
  load fs_empty quote no_environ expanduser_u basename_id "foo.py" upper
    (fun f => Return f) None (Some "fallback") None None None
  = Return (Default (Some "fallback")) /\
  load fs_empty quote no_environ expanduser_u basename_id "foo.py" upper
    (fun f => Return f) None (@None string) None None None
  = Raise (ValueError
             ("No config file was found in those paths: "
              +:+ "/home/u/.foo.rc, /home/u/.foo.rc, /etc/foo.rc.")).
Proof.
  split.
  - apply (load_nothing_found fs_empty quote no_environ expanduser_u
             basename_id "foo.py" upper (fun f => Return f) None
             (Some "fallback") None None);
      first [discriminate | reflexivity].
  - apply (load_nothing_found fs_empty quote no_environ expanduser_u
             basename_id "foo.py" upper (fun f => Return f) None
             (@None string) None None);
      first [discriminate | reflexivity].
Defined.

Lemma infer_basename_script_witness :
  infer_basename basename_id "foo.py" None = "foo".
Proof. by apply (infer_basename_script basename_id "foo.py" "foo"). Defined.

(** The backend of the script: the second access is a hit. *)
Lemma backend_cfg_computed_once_witness :
  Backend._cfg rt_py 0 (Backend._cfg rt_py 0 w_backend).2
  = (Return 2, (Backend._cfg rt_py 0 w_backend).2) /\
  parses (Backend._cfg rt_py 0 w_backend).2 = [(PyCfg, "app.rc")].
Proof.
  split; [| reflexivity].
  exact (backend_cfg_computed_once rt_py 0 w_backend 2
           (Backend._cfg rt_py 0 w_backend).2 eq_refl).
Defined.

Lemma pycfg_hides_builtins_witness :
  exists d,
    dicts (Backend._cfg rt_py 0 w_backend).2 !! 2 = Some d /\
    dict_get d "__builtins__" = None /\
    forall k, is_Some (dict_get d k) <->
              k ∈ ["__builtins__"; "x"; "b"; "e"] /\ k <> "__builtins__".
Proof.
  exact (pycfg_hides_builtins rt_py (mk_cfg PyCfg "app.rc" None) 0 w_backend
           [("__builtins__", TNone); ("x", TInt 1);
            ("b", TDict [("foo", TInt 3)]); ("e", TDict [])]
           2 (Backend._cfg rt_py 0 w_backend).2
           eq_refl eq_refl eq_refl eq_refl eq_refl).
Defined.

Lemma choose_loop_skips_unavailable_witness :
  Backend.choose_cfg_manager rt_py "app.rc" empty_world
  = Backend.choose_loop rt_py [PyCfg; YamlCfg] "app.rc" empty_world.
Proof.
  exact (choose_loop_skips_unavailable rt_py [PyCfg] ConfigObjCfg [YamlCfg]
           "app.rc" eq_refl empty_world).
Defined.

Lemma choose_cfg_manager_prefers_pycfg_witness :
  exists o w1,
    Backend.choose_cfg_manager rt_py "app.rc" empty_world = (Return o, w1) /\
    cfgs w1 !! o = Some (mk_cfg PyCfg "app.rc" None).
Proof.
  exact (choose_cfg_manager_prefers_pycfg rt_py "app.rc" _ empty_world
           eq_refl).
Defined.

(** [cfg['x']] twice on the script. *)
Lemma getitem_leaf_idempotent_witness :
  Config.__getitem__ rt_py 0 "x" w_loaded
  = (Return (Config.Leaf (VInt 1)), w_loaded).
Proof.
  exact (getitem_leaf_idempotent rt_py 0 "x" w_view (VInt 1) w_loaded
           eq_refl).
Defined.

(** [cfg['x'] = 3] on the structured-mapping file: one write of the
    root mapping to the file. *)
Lemma setitem_saves_root_witness :
  Config.__setitem__ rt_yaml 0 "x" (VInt 3) w_yaml_loaded
  = (Return tt, log_write ("app.yml", 5) (set_dicts h_yaml_x w_yaml_loaded)) /\
  writes (log_write ("app.yml", 5) (set_dicts h_yaml_x w_yaml_loaded))
  = [("app.yml", 5)].
Proof.
  exact (setitem_saves_root rt_yaml 0 "x" (VInt 3) w_yaml_loaded
           (mk_config [] 2 None (Some 5)) (mk_cfg YamlCfg "app.yml" (Some 5))
           5 5 w_yaml_loaded h_yaml_x
           eq_refl eq_refl eq_refl eq_refl eq_refl eq_refl).
Defined.

(** [del cfg['x']] on the script. *)
Lemma delitem_read_only_witness :
  Config.__delitem__ rt_py 0 "x" w_view
  = (Raise NotImplementedError, set_dicts h_deleted w_loaded) /\
  dicts (set_dicts h_deleted w_loaded) !! 2
  = Some [("b", VDict 0); ("e", VDict 1)].
Proof.
  split; [| reflexivity].
  exact (delitem_read_only rt_py 0 "x" w_view (mk_config [] 0 None None)
           (mk_cfg PyCfg "app.rc" None) 2 w_loaded h_deleted
           eq_refl eq_refl eq_refl eq_refl eq_refl).
Defined.

(** [cfg['b']['bar'] = 2], then [cfg['b.bar']]. *)
Lemma subview_assignment_shared_witness :
  exists sv w1 w2,
    Config.__getitem__ rt_py 0 "b" w_view = (Return (Config.View sv), w1) /\
    Config.assign rt_py sv "bar" (VInt 2) w1 = (Return tt, w2) /\
    dicts w2 = <[0 := dict_set [("foo", VInt 3)] "bar" (VInt 2)]>
                 (dicts w_loaded) /\
    (Config.__getitem__ rt_py 0 "b.bar" w2).1
    = Return (Spec.item_of (VInt 2) (length (configs w2))).
Proof.
  apply (subview_assignment_shared rt_py 0 "b" "bar" (VInt 2) w_view 2
           w_loaded [("x", VInt 1); ("b", VDict 0); ("e", VDict 1)] 0
           [("foo", VInt 3)]); first [discriminate | reflexivity].
Defined.

End MoreRuns.

(** * Missing keys and views made from a file name *)
Section ViewEdges.

Variable rt : runtime.

(** X25. Item access at a plain key that the mapping of the view does
    not hold raises the missing-key error that names the key; no view is
    built. *)
Theorem getitem_missing_key cfg k w dct w0 d :
  Spec.plain k = true ->
  Config._cfg rt cfg w = (Return dct, w0) ->
  dicts w0 !! dct = Some d ->
  dict_get d k = None ->
  Config.__getitem__ rt cfg k w = (Raise (MissingKeyError k), w0).
Proof.
  intros Hk Hcfg Hd Hdk.
  destruct (config_cfg_deref _ _ _ _ _ Hcfg) as [c Hc].
  rewrite (getitem_after_cfg rt cfg k _ _ _ _ Hc Hcfg).
  unfold Spec.getitem_result. rewrite (tokenize_plain k Hk).
  cbn [mdict.aget]. by rewrite Hd, Hdk.
Qed.

(** The detection builds backends and no view. *)
Lemma choose_loop_configs cms filename : forall w,
  configs (Backend.choose_loop rt cms filename w).2 = configs w.
Proof.
  induction cms as [| cm cms IH]; intros w; [reflexivity |].
  cbn [Backend.choose_loop]. unfold try_except. rewrite try_body.
  unfold Backend.trial, bind.
  assert (forall w0, configs (Backend.construct rt cm filename w0).2
                     = configs w0) as Hcons.
  { intros w0. unfold Backend.construct, Backend.__init__, raise.
    destruct cm; try reflexivity.
    - by destruct (configobj rt).
    - by destruct (yaml rt). }
  pose proof (Hcons w) as H1.
  destruct (Backend.construct rt cm filename w) as [[o | x] w1];
    cbn [snd] in H1.
  - pose proof (backend_cfg_frame rt o w1) as [H2 _].
    destruct (Backend._cfg rt o w1) as [[r | x] w2]; cbn [snd] in H2.
    + cbv beta iota. pose proof (Hcons w2) as H3.
      destruct (Backend.construct rt cm filename w2) as [[o' | x] w3];
        cbn [snd] in *; [congruence |].
      rewrite IH. congruence.
    + cbv beta iota. rewrite IH. congruence.
  - cbv beta iota. rewrite IH. exact H1.
Qed.

(** X27. [Config(filename)] runs the detection first: when the detection
    fails the call fails with its error and no view is built; when it
    returns a backend the new view is over that backend, with the prefix
    and the mapping it was given and an empty memo. *)
Theorem config_init_from_filename filename prefix cfg w :
  match Backend.choose_cfg_manager rt filename w with
  | (Raise x, w1) =>
      Config.__init__ rt (Config.Filename filename) prefix cfg w
      = (Raise x, w1) /\
      configs w1 = configs w
  | (Return m, w1) =>
      Config.__init__ rt (Config.Filename filename) prefix cfg w
      = (Return (length (configs w)),
         set_configs
           (configs w
            ++ [mk_config (match prefix with Some p => p | None => [] end)
                          m cfg None]) w1)
  end.
Proof.
  pose proof (choose_loop_configs Backend._GENERIC_CFG filename w) as Hc.
  unfold Config.__init__, bind.
  fold (Backend.choose_cfg_manager rt filename w) in Hc.
  destruct (Backend.choose_cfg_manager rt filename w) as [[m | x] w1];
    cbn [snd] in Hc.
  - by rewrite Hc.
  - by split.
Qed.

End ViewEdges.

Section EdgeRuns.

Import Examples MoreExamples.

(** [cfg['z']] on the script of the docstring. *)
Lemma getitem_missing_key_witness :
  Config.__getitem__ rt_py 0 "z" w_view
  = (Raise (MissingKeyError "z"), w_loaded).
Proof.
  exact (getitem_missing_key rt_py 0 "z" w_view 2 w_loaded
           [("x", VInt 1); ("b", VDict 0); ("e", VDict 1)]
           eq_refl eq_refl eq_refl eq_refl).
Defined.


End EdgeRuns.
